(** * transcribe-with-ai: the download / transcribe / process scripts

    A shallow embedding of the Python scripts of the repository and the
    properties of their pipeline contract.

    Conventions of the embedding.
    - A Python [str] is a Rocq [string]; one [ascii] is one character, so
      the model covers the characters with code point below 256.
    - A Python [int] is a [Z]; [None] is the [None] of an [option].
    - External libraries (the remote speech API, the command-line tool,
      the speech-recognition model, the media extractor, [mimetypes]) are
      the fields of an environment record [Env]: what they answer is
      arbitrary, what the scripts do with the answers is the code.
    - Effects are threaded through a state-and-exception monad [M]; the
      state is the file system and the log of calls made to the outside.
    - Status and diagnostic messages ([print], [st.error], progress bars
      and callbacks) are display only and are not logged; the prints
      that deliver a result are. *)

From Stdlib Require Import ZArith Ascii Bool Lia.
From stdpp Require Import base option list gmap strings pretty.

Open Scope Z_scope.

(** ** Python's string methods *)

Module Py.

(** [c.isspace()] for a character below U+0100. *)
Definition isspace (c : ascii) : bool :=
  let n := N_of_ascii c in
  ((9 <=? n) && (n <=? 13) || (28 <=? n) && (n <=? 32)
   || (n =? 133) || (n =? 160))%N.

(** [s.lstrip()], [s.rstrip()] and [s.strip()]. *)
Fixpoint lstrip (s : string) : string :=
  match s with
  | EmptyString => EmptyString
  | String c s' => if isspace c then lstrip s' else s
  end.

Fixpoint rstrip (s : string) : string :=
  match s with
  | EmptyString => EmptyString
  | String c s' =>
      match rstrip s' with
      | EmptyString => if isspace c then EmptyString else String c EmptyString
      | r => String c r
      end
  end.

Definition strip (s : string) : string := rstrip (lstrip s).

(** [s.lower()] and [s.upper()] on one character; [upper] is only
    applied to the command-line task names, which are ASCII. *)
Definition lower_char (c : ascii) : ascii :=
  let n := N_of_ascii c in
  if ((65 <=? n) && (n <=? 90) || (192 <=? n) && (n <=? 214)
      || (216 <=? n) && (n <=? 222))%N
  then ascii_of_N (n + 32) else c.

Definition upper_char (c : ascii) : ascii :=
  let n := N_of_ascii c in
  if ((97 <=? n) && (n <=? 122))%N then ascii_of_N (n - 32) else c.

Fixpoint map_chars (f : ascii -> ascii) (s : string) : string :=
  match s with
  | EmptyString => EmptyString
  | String c s' => String (f c) (map_chars f s')
  end.

Definition lower : string -> string := map_chars lower_char.
Definition upper : string -> string := map_chars upper_char.

(** [s.startswith(p)]. *)
Definition startswith (p s : string) : bool := String.prefix p s.

(** [s[:n]] for a literal [n >= 0]. *)
Fixpoint slice_to (n : nat) (s : string) : string :=
  match n, s with
  | S n', String c s' => String c (slice_to n' s')
  | _, _ => EmptyString
  end.

(** [s[n:]] for [n >= 0]. *)
Fixpoint slice_from (n : nat) (s : string) : string :=
  match n, s with
  | S n', String _ s' => slice_from n' s'
  | _, _ => s
  end.

(** [sep.join(l)]. *)
Fixpoint join (sep : string) (l : list string) : string :=
  match l with
  | [] => EmptyString
  | [x] => x
  | x :: l' => x +:+ sep +:+ join sep l'
  end.

(** [s.replace(old, new)] for a non-empty [old]: the occurrences are
    found from the left and do not overlap.  [skip] counts the
    characters of a matched occurrence still to be dropped. *)
Fixpoint replace_go (old new : string) (skip : nat) (s : string) : string :=
  match s with
  | EmptyString => EmptyString
  | String c s' =>
      match skip with
      | S k => replace_go old new k s'
      | O =>
          if String.prefix old s
          then new +:+ replace_go old new (String.length old - 1) s'
          else String c (replace_go old new 0 s')
      end
  end.

Definition replace (old new s : string) : string := replace_go old new 0 s.

(** [sub in s]. *)
Fixpoint contains (sub s : string) : bool :=
  String.prefix sub s ||
  match s with
  | EmptyString => false
  | String _ s' => contains sub s'
  end.

(** [s.rfind(c)] for a one-character [c]: the last index, or -1.
    [i] is the index of the first character of [s]. *)
Fixpoint rfind_from (c : ascii) (s : string) (i : Z) : Z :=
  match s with
  | EmptyString => -1
  | String a s' =>
      let r := rfind_from c s' (i + 1) in
      if 0 <=? r then r else if Ascii.eqb a c then i else -1
  end.

Definition rfind (c : ascii) (s : string) : Z := rfind_from c s 0.

(** [any(ch != '.' for ch in s)]. *)
Fixpoint any_not_dot (s : string) : bool :=
  match s with
  | EmptyString => false
  | String a s' => negb (Ascii.eqb a ".") || any_not_dot s'
  end.

(** [os.path.splitext(p)] of posixpath: the extension starts at the last
    dot of the last component, unless only dots precede it there. *)
Definition splitext (p : string) : string * string :=
  let sepIndex := rfind "/" p in
  let dotIndex := rfind "." p in
  if (sepIndex <? dotIndex)
     && any_not_dot (slice_to (Z.to_nat (dotIndex - (sepIndex + 1)))
                       (slice_from (Z.to_nat (sepIndex + 1)) p))
  then (slice_to (Z.to_nat dotIndex) p, slice_from (Z.to_nat dotIndex) p)
  else (p, EmptyString).

(** [os.path.join(a, b)] of posixpath. *)
Definition endswith_slash (a : string) : bool :=
  match String.get (String.length a - 1) a with
  | Some c => Ascii.eqb c "/"
  | None => false
  end.

Definition path_join (a b : string) : string :=
  if startswith "/" b then b
  else if String.eqb a "" || endswith_slash a then a +:+ b
  else a +:+ "/" +:+ b.

(** [Path(p).stem] for a path without trailing slash: the last
    component without its last suffix; a leading or a final dot starts
    no suffix. *)
Definition stem (p : string) : string :=
  let name := slice_from (Z.to_nat (rfind "/" p + 1)) p in
  let i := rfind "." name in
  if (0 <? i) && (i <? Z.of_nat (String.length name) - 1)
  then slice_to (Z.to_nat i) name
  else name.

(** [s.title()] on ASCII text. *)
Definition is_ascii_letter (c : ascii) : bool :=
  let n := N_of_ascii c in
  ((65 <=? n) && (n <=? 90) || (97 <=? n) && (n <=? 122))%N.

Fixpoint title_go (in_word : bool) (s : string) : string :=
  match s with
  | EmptyString => EmptyString
  | String c s' =>
      String (if is_ascii_letter c
              then if in_word then lower_char c else upper_char c
              else c)
             (title_go (is_ascii_letter c) s')
  end.

Definition title (s : string) : string := title_go false s.

(** [s * n]. *)
Fixpoint times (s : string) (n : nat) : string :=
  match n with
  | O => EmptyString
  | S n' => s +:+ times s n'
  end.

(** [str(n)] for an int. *)
Definition str_of_int (n : Z) : string := pretty n.

(** The truth value of a [str], and of a value that is a [str] or
    [None]. *)
Definition truthy (s : string) : bool := negb (String.eqb s "").

Definition truthy_opt (o : option string) : bool :=
  match o with
  | Some s => truthy s
  | None => false
  end.

(** [s.rsplit('.', 1)[0]]: the text before the last dot, or all of it. *)
Definition rsplit_dot_head (s : string) : string :=
  let i := rfind "." s in
  if i <? 0 then s else slice_to (Z.to_nat i) s.

End Py.

(** ** Exceptions, the outside world and the effect monad *)

(** The exception classes the scripts distinguish.  [Exception] stands
    for [Exception] itself and for the library errors derived from it
    that no handler names; [KeyboardInterrupt] and [SystemExit] derive
    from [BaseException] only. *)
Inductive exn : Type :=
| Exception (msg : string)
| FileNotFoundError (msg : string)
| CalledProcessError (returncode : Z) (msg : string)
| TimeoutExpired (msg : string)
| KeyboardInterrupt
| SystemExit (code : Z).

(** [isinstance(e, Exception)], what [except Exception] catches. *)
Definition is_Exception (e : exn) : bool :=
  match e with
  | KeyboardInterrupt | SystemExit _ => false
  | _ => true
  end.

(** What [except subprocess.CalledProcessError] catches. *)
Definition is_CalledProcessError (e : exn) : bool :=
  match e with
  | CalledProcessError _ _ => true
  | _ => false
  end.

(** What [except FileNotFoundError] and [except subprocess.TimeoutExpired]
    catch. *)
Definition is_FileNotFoundError (e : exn) : bool :=
  match e with
  | FileNotFoundError _ => true
  | _ => false
  end.

Definition is_TimeoutExpired (e : exn) : bool :=
  match e with
  | TimeoutExpired _ => true
  | _ => false
  end.

(** A bare [except:] catches everything. *)
Definition is_BaseException (e : exn) : bool := true.

(** [str(e)]. *)
Definition exn_str (e : exn) : string :=
  match e with
  | Exception m | FileNotFoundError m | CalledProcessError _ m
  | TimeoutExpired m => m
  | KeyboardInterrupt => ""
  | SystemExit c => Py.str_of_int c
  end.

(** One element of the list given to [model.generate_content]. *)
Inductive part : Type :=
| Text (s : string)
| FileRef (name : string).

(** [subprocess.CompletedProcess]. *)
Record CompletedProcess : Type := mkCompleted {
  returncode : Z;
  stdout : string;
  stderr : string
}.

(** A segment emitted by faster-whisper and the [info] returned with the
    segments.  The time stamps only feed progress messages. *)
Record Segment : Type := mkSegment { seg_text : string }.
Record TranscriptionInfo : Type := mkInfo { language : string }.

(** The [info] dictionary of the media extractor: a key may be missing,
    and ["duration"] may hold [None]. *)
Record YInfo : Type := mkYInfo {
  info_title : option string;
  info_duration : option (option Z)
}.

(** Calls that reach the outside, in the order they were made.  An
    upload or a deletion is logged when the service accepted it. *)
Inductive event : Type :=
| EvUpload (path mime_type name : string)
| EvGenerate (model : string) (parts : list part)
| EvDelete (name : string)
| EvRun (argv : list string)
| EvPrint (text : string).

Record world : Type := mkWorld {
  fs : gmap string string;      (* the paths that exist, with their content *)
  log : list event
}.

(** The answers of the libraries the scripts call, and of the operating
    system when a directory is made or a file that the user names is
    opened for writing. *)
Record Env : Type := mkEnv {
  GEMINI_MODEL : string;
  getcwd : string;
  guess_type : string -> option string;
  genai_upload_file : string -> string -> exn + string;
  genai_generate_content : string -> list part -> exn + (exn + string);
  genai_delete_file : string -> exn + unit;
  run_process : list string -> option Z -> exn + CompletedProcess;
  faster_whisper_transcribe :
    string -> string -> Z -> exn + (list Segment * TranscriptionInfo);
  whisper_transcribe : string -> string -> exn + string;
  ydl_extract_info :
    string -> string -> string -> gmap string string
    -> (exn + YInfo) * gmap string string;
  ydl_prepare_filename : YInfo -> exn + string;
  os_makedirs : string -> gmap string string -> exn + unit;
  os_open_for_writing : string -> gmap string string -> exn + unit
}.

Inductive outcome (A : Type) : Type :=
| Return (a : A)
| Raise (e : exn).
Arguments Return {A} a.
Arguments Raise {A} e.

Definition M (A : Type) : Type := world -> outcome A * world.

Definition ret {A} (a : A) : M A := fun w => (Return a, w).

Definition raise {A} (e : exn) : M A := fun w => (Raise e, w).

Definition bind {A B} (m : M A) (k : A -> M B) : M B :=
  fun w =>
    match m w with
    | (Return a, w') => k a w'
    | (Raise e, w') => (Raise e, w')
    end.

Notation "x <- m ;; k" := (bind m (fun x => k))
  (at level 100, m at next level, k at level 200, right associativity).
Notation "m ;;; k" := (bind m (fun _ => k))
  (at level 100, k at level 200, right associativity).

(** [try: body / except <class> as e: handler e]. *)
Definition try_except {A} (body : M A) (catches : exn -> bool)
    (handler : exn -> M A) : M A :=
  fun w =>
    match body w with
    | (Raise e, w') => if catches e then handler e w' else (Raise e, w')
    | r => r
    end.

(** [try: body / finally: final]. *)
Definition try_finally {A} (body : M A) (final : M unit) : M A :=
  fun w =>
    let '(r, w') := body w in
    match final w' with
    | (Return _, w'') => (r, w'')
    | (Raise e, w'') => (Raise e, w'')
    end.

Definition lift {A} (r : exn + A) : M A :=
  match r with
  | inl e => raise e
  | inr a => ret a
  end.

Definition emit (ev : event) : M unit :=
  fun w => (Return tt, mkWorld (fs w) (log w ++ [ev])).

(** [os.path.exists(p)]. *)
Definition path_exists (p : string) : M bool :=
  fun w => (Return (bool_decide (is_Some (fs w !! p))), w).

(** [with open(p, 'w') as f: f.write(content)] for a file that the
    script names itself, in the working directory or beside the audio
    file it has just read; creating it is taken to succeed. *)
Definition write_file (p content : string) : M unit :=
  fun w => (Return tt, mkWorld (<[p := content]> (fs w)) (log w)).

(** [os.remove(p)] of a path that exists. *)
Definition remove_file (p : string) : M unit :=
  fun w => (Return tt, mkWorld (delete p (fs w)) (log w)).

Definition print (text : string) : M unit := emit (EvPrint text).

(** [sys.exit(code)]. *)
Definition sys_exit {A} (code : Z) : M A := raise (SystemExit code).

(** The line feed of the Python literals. *)
Definition LF : string := String (ascii_of_nat 10) EmptyString.

Section Libraries.
Context (env : Env).

(** [genai.upload_file(path=..., mime_type=...)]; the result stands for
    the uploaded file, known by its [name]. *)
Definition upload_file (path mime_type : string) : M string :=
  name <- lift (genai_upload_file env path mime_type) ;;
  emit (EvUpload path mime_type name) ;;;
  ret name.

(** [model.generate_content(parts)]; the result is the response, whose
    [text] property returns or raises. *)
Definition generate_content (model : string) (parts : list part)
  : M (exn + string) :=
  emit (EvGenerate model parts) ;;;
  lift (genai_generate_content env model parts).

(** [response.text]. *)
Definition response_text (response : exn + string) : M string :=
  lift response.

(** [genai.delete_file(name)]. *)
Definition delete_file (name : string) : M unit :=
  lift (genai_delete_file env name) ;;;
  emit (EvDelete name).

(** [subprocess.run(argv, capture_output=True, text=True, timeout=...,
    check=...)]: with [check] a non-zero exit status raises. *)
Definition subprocess_run (argv : list string) (timeout : option Z)
    (check : bool) : M CompletedProcess :=
  emit (EvRun argv) ;;;
  result <- lift (run_process env argv timeout) ;;
  if check && negb (returncode result =? 0)
  then raise (CalledProcessError (returncode result) (stderr result))
  else ret result.

(** [ydl.extract_info(url, download=True)] under the given options:
    the extractor may create files. *)
Definition extract_info (format outtmpl url : string) : M YInfo :=
  fun w =>
    let '(r, fs') := ydl_extract_info env format outtmpl url (fs w) in
    lift r (mkWorld fs' (log w)).

Definition prepare_filename (info : YInfo) : M string :=
  lift (ydl_prepare_filename env info).

(** [os.makedirs(p, exist_ok=True)]: the system may refuse, for instance
    when [p] is a regular file; a directory that exists is left alone. *)
Definition makedirs (p : string) : M unit :=
  fun w =>
    match os_makedirs env p (fs w) with
    | inl e => (Raise e, w)
    | inr _ =>
        match fs w !! p with
        | Some _ => (Return tt, w)
        | None => (Return tt, mkWorld (<[p := ""]> (fs w)) (log w))
        end
    end.

(** [with open(p, 'w') as f: f.write(content)] for a path that the user
    names: opening it may raise, for instance when its directory is
    missing. *)
Definition write_output (p content : string) : M unit :=
  fun w =>
    match os_open_for_writing env p (fs w) with
    | inl e => (Raise e, w)
    | inr _ => write_file p content w
    end.

End Libraries.

(** The answers of the operating system that the smaller applications
    ask for: the names of the temporary directory and file, the content
    of a directory (in the order the system lists it), the clock, and
    the extractor run with the MP3 post-processor. *)
Record Host : Type := mkHost {
  mkdtemp : gmap string string -> string;
  listdir : string -> gmap string string -> list string;
  mkstemp : string -> gmap string string -> string;
  time_time : Z;
  ydl_extract_info_mp3 :
    string -> string -> gmap string string
    -> (exn + YInfo) * gmap string string
}.

(** [p] is the directory [dir] or lies below it. *)
Definition under (dir p : string) : bool :=
  String.eqb p dir || Py.startswith (dir +:+ "/") p.

(** The cleanup of a temporary directory removes it with all it holds. *)
Definition rmtree (dir : string) : M unit :=
  fun w =>
    (Return tt,
     mkWorld (filter (fun entry => under dir entry.1 = false) (fs w)) (log w)).

Section Hosts.
Context (host : Host).

(** [with tempfile.TemporaryDirectory() as temp_dir: body]. *)
Definition with_temporary_directory {A} (body : string -> M A) : M A :=
  fun w =>
    let temp_dir := mkdtemp host (fs w) in
    try_finally (body temp_dir) (rmtree temp_dir)
      (mkWorld (<[temp_dir := ""]> (fs w)) (log w)).

(** [os.listdir(dir)]. *)
Definition os_listdir (dir : string) : M (list string) :=
  fun w => (Return (listdir host dir (fs w)), w).

(** [with tempfile.NamedTemporaryFile(suffix=..., delete=False) as f:
    f.write(data)], giving [f.name]. *)
Definition named_temporary_file (suffix data : string) : M string :=
  fun w =>
    let name := mkstemp host suffix (fs w) in
    (Return name, mkWorld (<[name := data]> (fs w)) (log w)).

(** [ydl.extract_info(url, download=True)] with the post-processor that
    converts to MP3 at quality 192. *)
Definition extract_info_mp3 (outtmpl url : string) : M YInfo :=
  fun w =>
    let '(r, fs') := ydl_extract_info_mp3 host outtmpl url (fs w) in
    lift r (mkWorld fs' (log w)).

(** [with open(p, 'rb') as f: f.read()]; a missing file raises. *)
Definition read_file (p : string) : M string :=
  fun w =>
    match fs w !! p with
    | Some data => (Return data, w)
    | None => (Raise (FileNotFoundError p), w)
    end.

End Hosts.

(** ** transcribe_with_gemini.py *)

Module transcribe_with_gemini.

(** The values argparse accepts for [--task]. *)
Inductive task_choice : Type := summarize | translate | analyze.

Definition task_name (t : task_choice) : string :=
  match t with
  | summarize => "summarize"
  | translate => "translate"
  | analyze => "analyze"
  end.

Record Args : Type := mkArgs {
  audio_file : string;
  task : task_choice;
  output : option string
}.

Definition mime_map : gmap string string :=
  list_to_map
    [ (".mp3", "audio/mpeg"); (".wav", "audio/wav"); (".m4a", "audio/mp4");
      (".aac", "audio/aac"); (".flac", "audio/flac"); (".ogg", "audio/ogg") ].

Section with_env.
Context (env : Env).

Definition get_mime_type (audio_path : string) : string :=
  let by_extension :=
    let ext := Py.lower (snd (Py.splitext audio_path)) in
    default "audio/wav" (mime_map !! ext) in
  match guess_type env audio_path with
  | Some mime_type =>
      if Py.truthy mime_type && Py.startswith "audio/" mime_type
      then mime_type
      else by_extension
  | None => by_extension
  end.

Definition transcribe_with_gemini (audio_path : string)
  : M (option string) :=
  try_except
    (let model := "gemini-1.5-flash" in
     let mime_type := get_mime_type audio_path in
     uploaded_file <- upload_file env audio_path mime_type ;;
     response <-
       generate_content env model
         [ Text "Please transcribe this audio file accurately. Return only the transcribed text without any additional commentary or formatting.";
           FileRef uploaded_file ] ;;
     delete_file env uploaded_file ;;;
     text <- response_text response ;;
     ret (Some text))
    is_Exception
    (fun e => ret None).

(** The local variable [prompt] of [summarize_with_claude]. *)
Definition summarize_prompt (text task : string) : string :=
  if String.eqb task "summarize" then
    "Please provide a concise summary of the following transcript:"
      +:+ LF +:+ LF +:+ text
  else if String.eqb task "translate" then
    "Please translate the following transcript to English:"
      +:+ LF +:+ LF +:+ text
  else if String.eqb task "analyze" then
    "Please analyze the key points and themes in the following transcript:"
      +:+ LF +:+ LF +:+ text
  else
    "Please " +:+ task +:+ " the following transcript:"
      +:+ LF +:+ LF +:+ text.

Definition summarize_with_claude (text task : string)
  : M (option string) :=
  try_except
    (let prompt := summarize_prompt text task in
     result <- subprocess_run env ["claude"; "say"; prompt] None false ;;
     if returncode result =? 0
     then ret (Some (Py.strip (stdout result)))
     else ret None)
    is_Exception
    (fun e => ret None).

(** [main] up to the fallback: the values of [transcript] and
    [processed_text] that the output is built from. *)
Definition main_pipeline (args : Args) : M (string * string) :=
  found <- path_exists (audio_file args) ;;
  if negb found then sys_exit 1
  else
    transcript <- transcribe_with_gemini (audio_file args) ;;
    if negb (Py.truthy_opt transcript) then sys_exit 1
    else
      let transcript := default "" transcript in
      processed_text <-
        summarize_with_claude transcript (task_name (task args)) ;;
      let processed_text :=
        if negb (Py.truthy_opt processed_text)
        then transcript               (* fall back to original transcript *)
        else default "" processed_text in
      ret (transcript, processed_text).

Definition output_content (args : Args) (transcript processed_text : string)
  : string :=
  "=== ORIGINAL TRANSCRIPT ===" +:+ LF +:+ transcript +:+ LF +:+ LF
    +:+ "=== CLAUDE " +:+ Py.upper (task_name (task args)) +:+ " ==="
    +:+ LF +:+ processed_text.

Definition main (args : Args) : M unit :=
  texts <- main_pipeline args ;;
  let '(transcript, processed_text) := texts in
  let content := output_content args transcript processed_text in
  if Py.truthy_opt (output args)
  then write_output env (default "" (output args)) content
  else
    print (LF +:+ Py.times "=" 50) ;;;
    print content ;;;
    print (Py.times "=" 50).

End with_env.

End transcribe_with_gemini.

(** ** gemini_claude_app.py *)

Module gemini_claude_app.

Definition mime_map : gmap string string :=
  list_to_map
    [ (".mp3", "audio/mpeg"); (".wav", "audio/wav"); (".m4a", "audio/mp4");
      (".aac", "audio/aac"); (".flac", "audio/flac"); (".ogg", "audio/ogg") ].

(** [seconds] is [None] or an int; [if seconds:] holds for a non-zero
    int; [//] and [%] are floor division and its remainder. *)
Definition format_duration (seconds : option Z) : string :=
  match seconds with
  | Some s =>
      if negb (s =? 0) then
        let hours := s / 3600 in
        let minutes := (s mod 3600) / 60 in
        let secs := s mod 60 in
        if 0 <? hours then
          Py.str_of_int hours +:+ "h " +:+ Py.str_of_int minutes +:+ "m "
            +:+ Py.str_of_int secs +:+ "s"
        else if 0 <? minutes then
          Py.str_of_int minutes +:+ "m " +:+ Py.str_of_int secs +:+ "s"
        else
          Py.str_of_int secs +:+ "s"
      else "Unknown"
  | None => "Unknown"
  end.

(** The local variable [prompt] of [process_with_claude]. *)
Definition process_prompt (text task target_language : string) : string :=
  if String.eqb task "summarize" then
    "Please provide a concise summary of the following transcript in "
      +:+ target_language +:+ ":" +:+ LF +:+ LF +:+ text
  else if String.eqb task "translate" then
    "Please translate the following transcript to "
      +:+ target_language +:+ ":" +:+ LF +:+ LF +:+ text
  else if String.eqb task "analyze" then
    "Please analyze the key points and themes in the following transcript in "
      +:+ target_language +:+ ":" +:+ LF +:+ LF +:+ text
  else
    "Please " +:+ task +:+ " the following transcript in "
      +:+ target_language +:+ ":" +:+ LF +:+ LF +:+ text.

Section with_env.
Context (env : Env).

Definition get_mime_type (audio_path : string) : string :=
  let by_extension :=
    let ext := Py.lower (snd (Py.splitext audio_path)) in
    default "audio/wav" (mime_map !! ext) in
  match guess_type env audio_path with
  | Some mime_type =>
      if Py.truthy mime_type && Py.startswith "audio/" mime_type
      then mime_type
      else by_extension
  | None => by_extension
  end.

Definition transcribe_with_gemini (audio_path : string)
  : M (option string) :=
  try_except
    (let model := GEMINI_MODEL env in
     let mime_type := get_mime_type audio_path in
     uploaded_file <- upload_file env audio_path mime_type ;;
     response <-
       generate_content env model
         [ Text "Please transcribe this audio file accurately. Return only the transcribed text without any additional commentary or formatting.";
           FileRef uploaded_file ] ;;
     delete_file env uploaded_file ;;;
     text <- response_text response ;;
     ret (Some text))
    is_Exception
    (fun e => ret None).

Definition process_with_claude (text task target_language : string)
  : M (option string) :=
  try_except
    (let prompt := process_prompt text task target_language in
     result <- subprocess_run env ["claude"; "--print"; prompt] None false ;;
     if returncode result =? 0
     then ret (Some (Py.strip (stdout result)))
     else ret None)
    is_Exception
    (fun e => ret None).

(** The progress bar and the status line only display the download;
    they are left out. *)
Definition download_youtube_audio (youtube_url : string)
  : M (string * string * option Z) :=
  let download_dir := Py.path_join (getcwd env) "downloads" in
  makedirs env download_dir ;;;
  try_except
    (found_name <-
       (info <-
          extract_info env "bestaudio[ext=m4a]/bestaudio/best"
            (Py.path_join download_dir "%(title)s.%(ext)s") youtube_url ;;
        let video_title := default "Unknown" (info_title info) in
        let duration := default (Some 0) (info_duration info) in
        filename <- prepare_filename env info ;;
        found <- path_exists filename ;;
        found_m4a <-
          (if negb found
           then path_exists (Py.replace ".webm" ".m4a" filename)
           else ret false) ;;
        let filename :=
          if negb found && found_m4a
          then Py.replace ".webm" ".m4a" filename
          else filename in
        ret (filename, video_title, duration)) ;;
     let '(filename, video_title, duration) := found_name in
     found <- path_exists filename ;;
     if found then ret (filename, video_title, duration)
     else raise (Exception "Failed to download audio"))
    is_Exception
    (fun e => raise (Exception ("Error: " +:+ exn_str e))).

(** The handler of the upload button in [main]: the uploaded file was
    saved as [temp_path]; the result is what the session state receives,
    the transcript and the processed text. *)
Definition main_upload_process (temp_path task target_language : string)
  : M (option (string * option string)) :=
  try_finally
    (try_except
       (transcript <- transcribe_with_gemini temp_path ;;
        if Py.truthy_opt transcript then
          processed_text <-
            process_with_claude (default "" transcript) task target_language ;;
          ret (Some (default "" transcript, processed_text))
        else ret None)
       is_Exception
       (fun e => ret None))
    (found <- path_exists temp_path ;;
     if found then remove_file temp_path else ret tt).

(** The handler of the YouTube button in [main]; the session state also
    receives the label built from the title and the duration. *)
Definition main_youtube_process (youtube_url task target_language : string)
  : M (option (string * option string * string)) :=
  try_except
    (downloaded <- download_youtube_audio youtube_url ;;
     let '(audio_path, video_title, duration) := downloaded in
     transcript <- transcribe_with_gemini audio_path ;;
     if Py.truthy_opt transcript then
       processed_text <-
         process_with_claude (default "" transcript) task target_language ;;
       ret (Some (default "" transcript, processed_text,
                  video_title +:+ " (" +:+ format_duration duration +:+ ")"))
     else ret None)
    is_Exception
    (fun e => ret None).

End with_env.

End gemini_claude_app.

(** ** gemini_app.py *)

Module gemini_app.

Definition mime_map : gmap string string :=
  list_to_map
    [ (".mp3", "audio/mpeg"); (".wav", "audio/wav"); (".m4a", "audio/mp4");
      (".aac", "audio/aac"); (".flac", "audio/flac"); (".ogg", "audio/ogg") ].

(** The local variable [prompt] of [process_with_gemini]. *)
Definition process_prompt (text task target_language : string) : string :=
  if String.eqb task "summarize" then
    "Please provide a concise summary of the following transcript in "
      +:+ target_language +:+ ":" +:+ LF +:+ LF +:+ text
  else if String.eqb task "translate" then
    "Please translate the following transcript to "
      +:+ target_language +:+ ":" +:+ LF +:+ LF +:+ text
  else if String.eqb task "analyze" then
    "Please analyze the key points and themes in the following transcript in "
      +:+ target_language +:+ ":" +:+ LF +:+ LF +:+ text
  else
    "Please " +:+ task +:+ " the following transcript in "
      +:+ target_language +:+ ":" +:+ LF +:+ LF +:+ text.

Section with_env.
Context (env : Env).

Definition get_mime_type (audio_path : string) : string :=
  let by_extension :=
    let ext := Py.lower (snd (Py.splitext audio_path)) in
    default "audio/wav" (mime_map !! ext) in
  match guess_type env audio_path with
  | Some mime_type =>
      if Py.truthy mime_type && Py.startswith "audio/" mime_type
      then mime_type
      else by_extension
  | None => by_extension
  end.

Definition process_with_gemini (text task target_language : string)
  : M (option string) :=
  try_except
    (let model := "gemini-2.0-flash" in
     let prompt := process_prompt text task target_language in
     response <- generate_content env model [Text prompt] ;;
     text1 <- response_text response ;;
     if Py.truthy text1
     then text2 <- response_text response ;; ret (Some (Py.strip text2))
     else ret None)
    is_Exception
    (fun e => ret None).

End with_env.

End gemini_app.

(** ** youtube_downloader.py *)

Module youtube_downloader.

Definition format_duration (seconds : option Z) : string :=
  match seconds with
  | Some s =>
      if negb (s =? 0) then
        let hours := s / 3600 in
        let minutes := (s mod 3600) / 60 in
        let secs := s mod 60 in
        if 0 <? hours then
          Py.str_of_int hours +:+ "h " +:+ Py.str_of_int minutes +:+ "m "
            +:+ Py.str_of_int secs +:+ "s"
        else if 0 <? minutes then
          Py.str_of_int minutes +:+ "m " +:+ Py.str_of_int secs +:+ "s"
        else
          Py.str_of_int secs +:+ "s"
      else "Unknown"
  | None => "Unknown"
  end.

Section with_env.
Context (env : Env).

Definition download_audio (youtube_url : string)
  : M (string * string * option Z) :=
  let download_dir := Py.path_join (getcwd env) "downloads" in
  makedirs env download_dir ;;;
  try_except
    (found_name <-
       (info <-
          extract_info env "bestaudio[ext=m4a]/bestaudio/best"
            (Py.path_join download_dir "%(title)s.%(ext)s") youtube_url ;;
        let video_title := default "Unknown" (info_title info) in
        let duration := default (Some 0) (info_duration info) in
        filename <- prepare_filename env info ;;
        found <- path_exists filename ;;
        found_m4a <-
          (if negb found
           then path_exists (Py.replace ".webm" ".m4a" filename)
           else ret false) ;;
        let filename :=
          if negb found && found_m4a
          then Py.replace ".webm" ".m4a" filename
          else filename in
        ret (filename, video_title, duration)) ;;
     let '(filename, video_title, duration) := found_name in
     found <- path_exists filename ;;
     if found then ret (filename, video_title, duration)
     else raise (Exception "Failed to download audio"))
    is_Exception
    (fun e => raise (Exception ("Error: " +:+ exn_str e))).

End with_env.

End youtube_downloader.

(** ** transcribe_and_summarize.py *)

Module transcribe_and_summarize.
Section with_env.
Context (env : Env).

Definition transcribe_audio (audio_file model_size : string) : M string :=
  result <- lift (faster_whisper_transcribe env model_size audio_file 5) ;;
  let '(segments, info) := result in
  let transcription :=
    fold_left
      (fun transcription segment =>
         transcription +:+ (seg_text segment +:+ " "))
      segments "" in
  ret (Py.strip transcription).

(** The local variable [prompt] of [summarize_with_claude]. *)
Definition summarize_prompt (text : string) : string :=
  "Please provide a concise summary of the following transcription:"
    +:+ LF +:+ LF +:+ text +:+ LF +:+ LF +:+ "Summary:".

Definition summarize_with_claude (text : string) : M (option string) :=
  let prompt := summarize_prompt text in
  try_except
    (result <- subprocess_run env ["claude"; prompt] None true ;;
     ret (Some (stdout result)))
    is_CalledProcessError
    (fun e => ret None).

(** [argv] is [sys.argv]. *)
Definition main (argv : list string) : M unit :=
  if (length argv <? 2)%nat then sys_exit 1
  else
    let audio_file := default "" (argv !! 1%nat) in
    found <- path_exists audio_file ;;
    if negb found then sys_exit 1
    else
      transcription <- transcribe_audio audio_file "base" ;;
      let transcript_file :=
        Py.rsplit_dot_head audio_file +:+ "_transcript.txt" in
      write_file transcript_file transcription ;;;
      summary <- summarize_with_claude transcription ;;
      if Py.truthy_opt summary then
        let summary_file := Py.rsplit_dot_head audio_file +:+ "_summary.txt" in
        write_file summary_file (default "" summary) ;;;
        print (LF +:+ "--- CLAUDE SUMMARY ---") ;;;
        print (default "" summary) ;;;
        print ("--- END ---" +:+ LF)
      else ret tt.

End with_env.
End transcribe_and_summarize.

(** ** quick_transcribe.py *)

Module quick_transcribe.
Section with_env.
Context (env : Env).

Definition transcribe_audio (audio_file model_size : string) : M string :=
  result <- lift (faster_whisper_transcribe env model_size audio_file 1) ;;
  let '(segments, info) := result in
  let transcription :=
    fold_left
      (fun transcription segment => transcription ++ [seg_text segment])
      segments [] in
  ret (Py.join " " transcription).

(** [argv] is [sys.argv].  Without an argument [main] lists the
    downloads and exits. *)
Definition main (argv : list string) : M unit :=
  if (length argv <? 2)%nat then sys_exit 1
  else
    let audio_file := default "" (argv !! 1%nat) in
    found <- path_exists audio_file ;;
    if negb found then sys_exit 1
    else
      transcription <- transcribe_audio audio_file "tiny" ;;
      let base_name := Py.stem audio_file in
      let transcript_file := base_name +:+ "_transcript.txt" in
      write_file transcript_file transcription ;;;
      let prompt :=
        "Summarize this transcription in 3-5 key points:" +:+ LF +:+ LF
          +:+ Py.slice_to 4000 transcription in
      try_except
        (result <- subprocess_run env ["claude"; prompt] (Some 30) false ;;
         if returncode result =? 0 then
           let summary := stdout result in
           let summary_file := base_name +:+ "_summary.txt" in
           write_file summary_file summary ;;;
           print summary
         else ret tt)
        (fun e => is_FileNotFoundError e || is_TimeoutExpired e)
        (fun e => ret tt).

End with_env.
End quick_transcribe.

(** ** youtube_transcribe_app.py *)

Module youtube_transcribe_app.

(** The local variable [prompt] of [summarize_with_claude]. *)
Definition summarize_prompt (text language : string) : string :=
  if negb (String.eqb language "en") then
    "This is a transcription in " +:+ language +:+ " language. Please:"
      +:+ LF +:+ "1. Identify the main topic"
      +:+ LF +:+ "2. Provide a brief English summary (2-3 sentences)"
      +:+ LF +:+ "3. List 3-5 key points"
      +:+ LF +:+ LF +:+ "Transcription (excerpt):"
      +:+ LF +:+ Py.slice_to 2500 text
  else
    "Please analyze this transcription and provide:"
      +:+ LF +:+ "1. A concise summary (2-3 sentences)"
      +:+ LF +:+ "2. Main topics discussed"
      +:+ LF +:+ "3. Key takeaways (3-5 bullet points)"
      +:+ LF +:+ LF +:+ "Transcription (excerpt):"
      +:+ LF +:+ Py.slice_to 2500 text.

Section with_env.
Context (env : Env).

(** The progress callback only displays the count; it is left out. *)
Definition transcribe_audio (audio_file model_size : string)
  : M (string * string * Z) :=
  result <- lift (faster_whisper_transcribe env model_size audio_file 2) ;;
  let '(segments, info) := result in
  let '(transcription, segment_count) :=
    fold_left
      (fun state segment =>
         (fst state ++ [Py.strip (seg_text segment)], snd state + 1))
      segments ([], 0) in
  ret (Py.join " " transcription, language info, segment_count).

Definition summarize_with_claude (text language : string)
  : M (option string) :=
  let prompt := summarize_prompt text language in
  try_except
    (result <- subprocess_run env ["claude"; prompt] (Some 30) false ;;
     if returncode result =? 0
     then ret (Some (stdout result))
     else ret None)
    is_BaseException
    (fun e => ret None).

End with_env.
End youtube_transcribe_app.

(** ** transcribe_full.py *)

Module transcribe_full.

(** The local variable [prompt] of [process_with_claude]. *)
Definition process_prompt (text language : string) : string :=
  if negb (String.eqb language "en") then
    "This is a transcription in " +:+ language +:+ " language. Please:"
      +:+ LF +:+ "1. Identify the main topic"
      +:+ LF +:+ "2. Provide a brief English summary (2-3 sentences)"
      +:+ LF +:+ "3. List 3-5 key points mentioned"
      +:+ LF +:+ LF +:+ "Transcription:"
      +:+ LF +:+ Py.slice_to 3000 text
  else
    "Please analyze this transcription and provide:"
      +:+ LF +:+ "1. A concise summary (2-3 sentences)"
      +:+ LF +:+ "2. Main topics discussed"
      +:+ LF +:+ "3. Key takeaways (3-5 bullet points)"
      +:+ LF +:+ LF +:+ "Transcription:"
      +:+ LF +:+ Py.slice_to 3000 text.

Section with_env.
Context (env : Env).

Definition process_with_claude (text language : string)
  : M (option string) :=
  let prompt := process_prompt text language in
  try_except
    (result <- subprocess_run env ["claude"; prompt] (Some 30) false ;;
     if returncode result =? 0
     then ret (Some (stdout result))
     else ret None)
    is_BaseException
    (fun e => ret None).

End with_env.
End transcribe_full.

(** ** local_transcribe.py *)

Module local_transcribe.

(** The values argparse accepts for [--task]. *)
Inductive task_choice : Type := summarize | translate | format | analyze.

Definition task_name (t : task_choice) : string :=
  match t with
  | summarize => "summarize"
  | translate => "translate"
  | format => "format"
  | analyze => "analyze"
  end.

Record Args : Type := mkArgs {
  audio_file : string;
  model : string;
  task : task_choice;
  output : option string
}.

(** [prompts[args.task]]. *)
Definition prompts (t : task_choice) : string :=
  match t with
  | summarize => "Please provide a concise summary of this transcription:"
  | translate =>
      "Please translate this transcription to English (if not already in English):"
  | format =>
      "Please format this transcription with proper punctuation and paragraphs:"
  | analyze =>
      "Please analyze the key points and themes in this transcription:"
  end.

Section with_env.
Context (env : Env).

(** Loading the model and [model.transcribe(audio_file)["text"]]. *)
Definition transcribe_audio (audio_file model : string) : M string :=
  lift (whisper_transcribe env model audio_file).

Definition process_with_claude (text prompt : string) : M (option string) :=
  let temp_file := "temp_transcription.txt" in
  write_file temp_file text ;;;
  let claude_prompt := prompt +:+ LF +:+ LF +:+ text in
  try_finally
    (try_except
       (result <-
          subprocess_run env
            ["claude"; "-m"; "claude-3-haiku-20240307"; claude_prompt]
            None true ;;
        ret (Some (stdout result)))
       is_CalledProcessError
       (fun e => ret None))
    (found <- path_exists temp_file ;;
     if found then remove_file temp_file else ret tt).

(** [main] up to the call of the command-line tool: the values of
    [transcription] and [claude_result]. *)
Definition main_pipeline (args : Args) : M (string * option string) :=
  found <- path_exists (audio_file args) ;;
  if negb found then sys_exit 1
  else
    transcription <- transcribe_audio (audio_file args) (model args) ;;
    claude_result <-
      process_with_claude transcription (prompts (task args)) ;;
    ret (transcription, claude_result).

Definition main (args : Args) : M unit :=
  texts <- main_pipeline args ;;
  let '(transcription, claude_result) := texts in
  (if Py.truthy_opt claude_result then
     print (LF +:+ "Claude's response:") ;;;
     print (Py.times "=" 50) ;;;
     print (default "" claude_result) ;;;
     print (Py.times "=" 50) ;;;
     if Py.truthy_opt (output args) then
       write_output env (default "" (output args))
         (("Original Transcription:" +:+ LF +:+ transcription +:+ LF +:+ LF)
            +:+ ("Claude's " +:+ Py.title (task_name (task args)) +:+ ":"
                   +:+ LF +:+ default "" claude_result))
     else ret tt
   else ret tt) ;;;
  let transcript_file := Py.stem (audio_file args) +:+ "_transcript.txt" in
  write_file transcript_file transcription.

End with_env.
End local_transcribe.

(** ** simple_download_app.py *)

Module simple_download_app.
Section with_env.
Context (env : Env) (host : Host).

Definition download_audio (youtube_url : string)
  : M (string * string * option Z) :=
  with_temporary_directory host (fun temp_dir =>
    try_except
      (found_name <-
         (info <-
            extract_info env "bestaudio/best"
              (Py.path_join temp_dir "%(title)s.%(ext)s") youtube_url ;;
          let video_title := default "Unknown" (info_title info) in
          let duration := default (Some 0) (info_duration info) in
          filename <- prepare_filename env info ;;
          files <- os_listdir host temp_dir ;;
          let filename :=
            match
              List.find
                (fun file => Py.startswith (Py.slice_to 20 video_title) file)
                files
            with
            | Some file => Py.path_join temp_dir file
            | None => filename
            end in
          ret (filename, video_title, duration)) ;;
       let '(filename, video_title, duration) := found_name in
       found <- path_exists filename ;;
       if found then ret (filename, video_title, duration)
       else raise (Exception "Failed to download audio"))
      is_Exception
      (fun e => raise (Exception ("Error downloading video: " +:+ exn_str e)))).

End with_env.
End simple_download_app.

(** ** simple_transcribe_app.py *)

Module simple_transcribe_app.
Section with_env.
Context (env : Env) (host : Host).

(** The local variable [output_path] of [download_audio]. *)
Definition output_path : string :=
  Py.path_join (Py.path_join (getcwd env) "downloads")
    ("audio_" +:+ Py.str_of_int (time_time host) +:+ ".mp3").

Definition download_audio (youtube_url : string)
  : M (string * string * option Z) :=
  let download_dir := Py.path_join (getcwd env) "downloads" in
  makedirs env download_dir ;;;
  let timestamp := time_time host in
  let output_path :=
    Py.path_join download_dir
      ("audio_" +:+ Py.str_of_int timestamp +:+ ".mp3") in
  try_except
    (titled <-
       (info <-
          extract_info_mp3 host (Py.replace ".mp3" ".%(ext)s" output_path)
            youtube_url ;;
        let video_title := default "Unknown" (info_title info) in
        let duration := default (Some 0) (info_duration info) in
        ret (video_title, duration)) ;;
     let '(video_title, duration) := titled in
     found <- path_exists output_path ;;
     if found then ret (output_path, video_title, duration)
     else raise (Exception "Failed to download audio"))
    is_Exception
    (fun e => raise (Exception ("Error downloading video: " +:+ exn_str e))).

End with_env.
End simple_transcribe_app.

(** ** transcribe_app.py *)

Module transcribe_app.
Section with_env.
Context (env : Env) (host : Host).

Definition download_audio (youtube_url : string) : M (string * string) :=
  with_temporary_directory host (fun temp_dir =>
    let output_path := Py.path_join temp_dir "audio.mp3" in
    info <-
      extract_info_mp3 host (Py.replace ".mp3" ".%(ext)s" output_path)
        youtube_url ;;
    let video_title := default "Unknown" (info_title info) in
    found <- path_exists output_path ;;
    if found then
      audio_data <- read_file output_path ;;
      ret (audio_data, video_title)
    else raise (Exception "Failed to download audio")).

Definition transcribe_audio (audio_data model_name : string) : M string :=
  tmp_file_path <- named_temporary_file host ".mp3" audio_data ;;
  try_finally
    (lift (whisper_transcribe env model_name tmp_file_path))
    (remove_file tmp_file_path).

End with_env.
End transcribe_app.

(** ** Environments used to run the scripts on concrete inputs *)

Module Scenarios.

(** Every library answers without error: the upload is accepted as
    [files/a1], the speech API hears [heard], the command-line tool
    exits with [status] and prints [printed]. *)
Definition backend (heard : string) (status : Z) (printed : string) : Env :=
  {| GEMINI_MODEL := "gemini-1.5-flash";
     getcwd := "/home/user";
     guess_type := fun _ => None;
     genai_upload_file := fun _ _ => inr "files/a1";
     genai_generate_content := fun _ _ => inr (inr heard);
     genai_delete_file := fun _ => inr tt;
     run_process := fun _ _ => inr (mkCompleted status printed "");
     faster_whisper_transcribe := fun _ _ _ => inr ([], mkInfo "en");
     whisper_transcribe := fun _ _ => inr heard;
     ydl_extract_info := fun _ _ _ files => (inr (mkYInfo None None), files);
     ydl_prepare_filename := fun _ => inr "/home/user/downloads/clip.webm";
     os_makedirs := fun _ _ => inr tt;
     os_open_for_writing := fun _ _ => inr tt |}.

(** The upload is accepted and the transcription request is refused. *)
Definition generate_refused : Env :=
  {| GEMINI_MODEL := "gemini-1.5-flash";
     getcwd := "/home/user";
     guess_type := fun _ => None;
     genai_upload_file := fun _ _ => inr "files/a1";
     genai_generate_content := fun _ _ => inl (Exception "429 quota exceeded");
     genai_delete_file := fun _ => inr tt;
     run_process := fun _ _ => inr (mkCompleted 0 "" "");
     faster_whisper_transcribe := fun _ _ _ => inr ([], mkInfo "en");
     whisper_transcribe := fun _ _ => inr "";
     ydl_extract_info := fun _ _ _ files => (inr (mkYInfo None None), files);
     ydl_prepare_filename := fun _ => inr "clip.webm";
     os_makedirs := fun _ _ => inr tt;
     os_open_for_writing := fun _ _ => inr tt |}.

(** A text-generation backend that echoes its prompt. *)
Definition echo : Env :=
  {| GEMINI_MODEL := "gemini-1.5-flash";
     getcwd := "/home/user";
     guess_type := fun _ => None;
     genai_upload_file := fun _ _ => inr "files/a1";
     genai_generate_content := fun _ parts =>
       match parts with
       | [Text prompt] => inr (inr prompt)
       | _ => inr (inr "")
       end;
     genai_delete_file := fun _ => inr tt;
     run_process := fun argv _ => inr (mkCompleted 0 (default "" (last argv)) "");
     faster_whisper_transcribe := fun _ _ _ => inr ([], mkInfo "en");
     whisper_transcribe := fun _ _ => inr "";
     ydl_extract_info := fun _ _ _ files => (inr (mkYInfo None None), files);
     ydl_prepare_filename := fun _ => inr "clip.webm";
     os_makedirs := fun _ _ => inr tt;
     os_open_for_writing := fun _ _ => inr tt |}.

(** The speech-recognition model emits the given segments. *)
Definition hears (segments : list Segment) (lang : string) : Env :=
  {| GEMINI_MODEL := "gemini-1.5-flash";
     getcwd := "/home/user";
     guess_type := fun _ => None;
     genai_upload_file := fun _ _ => inr "files/a1";
     genai_generate_content := fun _ _ => inr (inr "");
     genai_delete_file := fun _ => inr tt;
     run_process := fun _ _ => inr (mkCompleted 0 "" "");
     faster_whisper_transcribe := fun _ _ _ => inr (segments, mkInfo lang);
     whisper_transcribe := fun _ _ => inr "";
     ydl_extract_info := fun _ _ _ files => (inr (mkYInfo None None), files);
     ydl_prepare_filename := fun _ => inr "clip.webm";
     os_makedirs := fun _ _ => inr tt;
     os_open_for_writing := fun _ _ => inr tt |}.

(** The extractor declares [declared] and leaves the files [after]. *)
Definition extracts (declared : string) (after : gmap string string) : Env :=
  {| GEMINI_MODEL := "gemini-1.5-flash";
     getcwd := "/home/user";
     guess_type := fun _ => None;
     genai_upload_file := fun _ _ => inr "files/a1";
     genai_generate_content := fun _ _ => inr (inr "");
     genai_delete_file := fun _ => inr tt;
     run_process := fun _ _ => inr (mkCompleted 0 "" "");
     faster_whisper_transcribe := fun _ _ _ => inr ([], mkInfo "en");
     whisper_transcribe := fun _ _ => inr "";
     ydl_extract_info := fun _ _ _ _ =>
       (inr (mkYInfo (Some "clip") (Some (Some 75))), after);
     ydl_prepare_filename := fun _ => inr declared;
     os_makedirs := fun _ _ => inr tt;
     os_open_for_writing := fun _ _ => inr tt |}.

(** After the download only the .m4a file is there. *)
Definition only_m4a : gmap string string :=
  {[ "/home/user/downloads/clip.m4a" := "audio" ]}.

(** A world with the given files and nothing logged yet. *)
Definition start (files : list (string * string)) : world :=
  mkWorld (list_to_map files) [].

End Scenarios.

Module Hosts.

(** The temporary directory is /tmp/t1 and lists the given names; the
    temporary file is /tmp/f1 with its suffix; the clock shows
    1751525714; the MP3 extraction leaves the files [after]. *)
Definition host (names : list string) (after : gmap string string) : Host :=
  {| mkdtemp := fun _ => "/tmp/t1";
     listdir := fun _ _ => names;
     mkstemp := fun suffix _ => "/tmp/f1" +:+ suffix;
     time_time := 1751525714;
     ydl_extract_info_mp3 := fun _ _ _ =>
       (inr (mkYInfo (Some "clip") (Some (Some 75))), after) |}.

(** After the download the temporary directory holds the clip. *)
Definition clip_in_tmp : gmap string string :=
  {[ "/tmp/t1/clip.webm" := "audio" ]}.

(** After the conversion the downloads directory holds the MP3. *)
Definition mp3_in_downloads : gmap string string :=
  {[ "/home/user/downloads/audio_1751525714.mp3" := "audio" ]}.

(** The command-line tool is not installed. *)
Definition no_claude (heard : string) : Env :=
  {| GEMINI_MODEL := "gemini-1.5-flash";
     getcwd := "/home/user";
     guess_type := fun _ => None;
     genai_upload_file := fun _ _ => inr "files/a1";
     genai_generate_content := fun _ _ => inr (inr heard);
     genai_delete_file := fun _ => inr tt;
     run_process := fun _ _ =>
       inl (FileNotFoundError "[Errno 2] No such file or directory: 'claude'");
     faster_whisper_transcribe := fun _ _ _ =>
       inr ([mkSegment heard], mkInfo "en");
     whisper_transcribe := fun _ _ => inr heard;
     ydl_extract_info := fun _ _ _ files => (inl (Exception "no network"), files);
     ydl_prepare_filename := fun _ => inr "clip.webm";
     os_makedirs := fun _ _ => inr tt;
     os_open_for_writing := fun _ _ => inr tt |}.

(** The user interrupts the program while it waits for the service or
    for the command-line tool. *)
Definition interrupted : Env :=
  {| GEMINI_MODEL := "gemini-1.5-flash";
     getcwd := "/home/user";
     guess_type := fun _ => None;
     genai_upload_file := fun _ _ => inl KeyboardInterrupt;
     genai_generate_content := fun _ _ => inr (inr "");
     genai_delete_file := fun _ => inr tt;
     run_process := fun _ _ => inl KeyboardInterrupt;
     faster_whisper_transcribe := fun _ _ _ => inr ([], mkInfo "en");
     whisper_transcribe := fun _ _ => inr "";
     ydl_extract_info := fun _ _ _ files => (inr (mkYInfo None None), files);
     ydl_prepare_filename := fun _ => inr "clip.webm";
     os_makedirs := fun _ _ => inr tt;
     os_open_for_writing := fun _ _ => inr tt |}.

(** After the download of the video "my.webm.tips" only the .m4a file
    is there. *)
Definition tips_m4a : gmap string string :=
  {[ "/home/user/downloads/my.webm.tips.m4a" := "audio" ]}.

End Hosts.

(** ** The vocabulary of the properties *)

(** The extensions of [mime_map]. *)
Definition known_extensions : list string :=
  [".mp3"; ".wav"; ".m4a"; ".aac"; ".flac"; ".ogg"].

(** [mimetypes.guess_type] found an [audio/...] type for the path. *)
Definition guessed_audio (env : Env) (audio_path : string) : bool :=
  match guess_type env audio_path with
  | Some mime_type => Py.truthy mime_type && Py.startswith "audio/" mime_type
  | None => false
  end.

(** The task of a directive and the template it selects. *)
Inductive template : Type :=
| Summarize
| Translate
| Analyze
| Custom (verb : string).

Definition select_template (task : string) : template :=
  if String.eqb task "summarize" then Summarize
  else if String.eqb task "translate" then Translate
  else if String.eqb task "analyze" then Analyze
  else Custom task.

Definition render (t : template) (target_language text : string) : string :=
  match t with
  | Summarize =>
      "Please provide a concise summary of the following transcript in "
        +:+ target_language +:+ ":" +:+ LF +:+ LF +:+ text
  | Translate =>
      "Please translate the following transcript to "
        +:+ target_language +:+ ":" +:+ LF +:+ LF +:+ text
  | Analyze =>
      "Please analyze the key points and themes in the following transcript in "
        +:+ target_language +:+ ":" +:+ LF +:+ LF +:+ text
  | Custom verb =>
      "Please " +:+ verb +:+ " the following transcript in "
        +:+ target_language +:+ ":" +:+ LF +:+ LF +:+ text
  end.

(** The instruction sent with the uploaded file. *)
Definition transcribe_request (name : string) : list part :=
  [ Text "Please transcribe this audio file accurately. Return only the transcribed text without any additional commentary or formatting.";
    FileRef name ].

(** What [transcribe_with_gemini] of transcribe_with_gemini.py returns,
    read off the answers of the service. *)
Definition gemini_answer (env : Env) (audio_path : string) : option string :=
  match genai_upload_file env audio_path
          (transcribe_with_gemini.get_mime_type env audio_path) with
  | inl _ => None
  | inr name =>
      match genai_generate_content env "gemini-1.5-flash"
              (transcribe_request name) with
      | inl _ => None
      | inr response =>
          match genai_delete_file env name with
          | inl _ => None
          | inr _ =>
              match response with
              | inl _ => None
              | inr text => Some text
              end
          end
      end
  end.

(** What [summarize_with_claude] returns, read off the answer of the
    command-line tool. *)
Definition claude_answer (env : Env) (text task : string) : option string :=
  match run_process env
          ["claude"; "say"; transcribe_with_gemini.summarize_prompt text task]
          None with
  | inl _ => None
  | inr result =>
      if returncode result =? 0 then Some (Py.strip (stdout result)) else None
  end.

(** Every error a library raises is an instance of [Exception]. *)
Definition raises_only_Exception (env : Env) : Prop :=
  (forall path mime e,
      genai_upload_file env path mime = inl e -> is_Exception e = true)
  /\ (forall model parts e,
      genai_generate_content env model parts = inl e -> is_Exception e = true)
  /\ (forall model parts e,
      genai_generate_content env model parts = inr (inl e) ->
      is_Exception e = true)
  /\ (forall name e, genai_delete_file env name = inl e -> is_Exception e = true)
  /\ (forall argv timeout e,
      run_process env argv timeout = inl e -> is_Exception e = true).

Fixpoint all_space (s : string) : bool :=
  match s with
  | EmptyString => true
  | String c s' => Py.isspace c && all_space s'
  end.

(** A segment text without white space at its ends. *)
Definition clean (t : string) : Prop := t <> "" /\ Py.strip t = t.

(** The texts of the segments, each followed by a space. *)
Definition spaced (segments : list Segment) : string :=
  fold_right (fun segment rest => seg_text segment +:+ " " +:+ rest) ""
    segments.

(** The directory the downloads go to, the files once it is made, and
    the options given to the extractor. *)
Definition download_dir (env : Env) : string :=
  Py.path_join (getcwd env) "downloads".

Definition files_before_download (env : Env) (w : world)
  : gmap string string :=
  fs (snd (makedirs env (download_dir env) w)).

Definition extraction (env : Env) (youtube_url : string) (w : world)
  : (exn + YInfo) * gmap string string :=
  ydl_extract_info env "bestaudio[ext=m4a]/bestaudio/best"
    (Py.path_join (download_dir env) "%(title)s.%(ext)s") youtube_url
    (files_before_download env w).

(** The download, read off the answers of the extractor. *)
Definition rethrown (e : exn) : exn :=
  if is_Exception e then Exception ("Error: " +:+ exn_str e) else e.

(** The prompts of the command-line variants, as functions of the
    excerpt they quote. *)
Definition youtube_template (language excerpt : string) : string :=
  if negb (String.eqb language "en") then
    "This is a transcription in " +:+ language +:+ " language. Please:"
      +:+ LF +:+ "1. Identify the main topic"
      +:+ LF +:+ "2. Provide a brief English summary (2-3 sentences)"
      +:+ LF +:+ "3. List 3-5 key points"
      +:+ LF +:+ LF +:+ "Transcription (excerpt):"
      +:+ LF +:+ excerpt
  else
    "Please analyze this transcription and provide:"
      +:+ LF +:+ "1. A concise summary (2-3 sentences)"
      +:+ LF +:+ "2. Main topics discussed"
      +:+ LF +:+ "3. Key takeaways (3-5 bullet points)"
      +:+ LF +:+ LF +:+ "Transcription (excerpt):"
      +:+ LF +:+ excerpt.

Definition full_template (language excerpt : string) : string :=
  if negb (String.eqb language "en") then
    "This is a transcription in " +:+ language +:+ " language. Please:"
      +:+ LF +:+ "1. Identify the main topic"
      +:+ LF +:+ "2. Provide a brief English summary (2-3 sentences)"
      +:+ LF +:+ "3. List 3-5 key points mentioned"
      +:+ LF +:+ LF +:+ "Transcription:"
      +:+ LF +:+ excerpt
  else
    "Please analyze this transcription and provide:"
      +:+ LF +:+ "1. A concise summary (2-3 sentences)"
      +:+ LF +:+ "2. Main topics discussed"
      +:+ LF +:+ "3. Key takeaways (3-5 bullet points)"
      +:+ LF +:+ LF +:+ "Transcription:"
      +:+ LF +:+ excerpt.

(** In the words of the specification: the prompt under a truncation
    limit that the caller supplies. *)
Definition prompt_with_limit (template : string -> string -> string)
    (max_chars : nat) (text language : string) : string :=
  template language (Py.slice_to max_chars text).

(** What the command-line tool is given by local_transcribe.py. *)
Definition local_argv (task : local_transcribe.task_choice)
    (transcription : string) : list string :=
  ["claude"; "-m"; "claude-3-haiku-20240307";
   local_transcribe.prompts task +:+ LF +:+ LF +:+ transcription].




(** ** Running the monad *)

Ltac run :=
  unfold upload_file, generate_content, response_text, delete_file,
    subprocess_run, extract_info, prepare_filename, print, sys_exit,
    try_except, try_finally, bind, lift, emit, raise, ret, path_exists,
    write_output, write_file, remove_file, makedirs;
  cbn [fst snd log fs].

(** ** Facts about the string methods *)

Lemma append_cons (c : ascii) (s t : string) :
  String c s +:+ t = String c (s +:+ t).
Proof. reflexivity. Qed.

Lemma append_nil_l (s : string) : "" +:+ s = s.
Proof. reflexivity. Qed.

Lemma append_nil_r (s : string) : s +:+ "" = s.
Proof.
  induction s as [|c s IH]; [reflexivity | now rewrite append_cons, IH].
Qed.

Lemma append_assoc (s t u : string) : (s +:+ t) +:+ u = s +:+ (t +:+ u).
Proof.
  induction s as [|c s IH]; [reflexivity | now rewrite !append_cons, IH].
Qed.

Lemma prefix_iff (p s : string) :
  String.prefix p s = true <-> exists rest, s = p +:+ rest.
Proof.
  revert s. induction p as [|c p IH]; intros s.
  - destruct s; (split; [intros _; eexists; reflexivity | reflexivity]).
  - destruct s as [|d s]; cbn [String.prefix].
    + split; [discriminate | intros [rest H]; discriminate].
    + destruct (ascii_dec c d) as [Heq|Hne].
      * rewrite IH. split; intros [rest H]; exists rest.
        -- rewrite append_cons. congruence.
        -- rewrite append_cons in H. congruence.
      * split; [discriminate |].
        intros [rest H]. rewrite append_cons in H. congruence.
Qed.

(** [Py.contains] decides the occurrence of a substring. *)
Lemma contains_iff (sub s : string) :
  Py.contains sub s = true <-> exists before after, s = before +:+ sub +:+ after.
Proof.
  induction s as [|c s IH].
  - cbn [Py.contains]. rewrite orb_false_r, prefix_iff. split.
    + intros [rest H]. exists "", rest. exact H.
    + intros [before [after H]]. destruct before as [|b before]; [|discriminate].
      exists after. exact H.
  - cbn [Py.contains]. rewrite orb_true_iff, IH, prefix_iff. split.
    + intros [[rest H] | [before [after H]]].
      * exists "", rest. exact H.
      * exists (String c before), after. rewrite append_cons. congruence.
    + intros [before [after H]]. destruct before as [|b before].
      * left. exists after. exact H.
      * right. rewrite append_cons in H. exists before, after. congruence.
Qed.

Example sp1 : Py.splitext "a/b.c/.hidden" = ("a/b.c/.hidden", "").
Proof. vm_compute. reflexivity. Qed.
Example sp2 : Py.splitext "a/b.c/x.tar.GZ" = ("a/b.c/x.tar", ".GZ").
Proof. vm_compute. reflexivity. Qed.
Example rp1 : Py.replace ".webm" ".m4a" "d/a.webm.b.webm" = "d/a.m4a.b.m4a".
Proof. vm_compute. reflexivity. Qed.
Example st1 : Py.strip "  a b  " = "a b".
Proof. vm_compute. reflexivity. Qed.
Example stem1 : Py.stem "downloads/my.song.mp3" = "my.song".
Proof. vm_compute. reflexivity. Qed.
Example stem2 : Py.stem ".bashrc" = ".bashrc".
Proof. vm_compute. reflexivity. Qed.
Example title1 : Py.title "summarize" = "Summarize".
Proof. vm_compute. reflexivity. Qed.
Example pj1 : Py.path_join "/home/u" "downloads" = "/home/u/downloads".
Proof. vm_compute. reflexivity. Qed.
Example fd1 : youtube_downloader.format_duration (Some 3725) = "1h 2m 5s".
Proof. vm_compute. reflexivity. Qed.
Example fd2 : youtube_downloader.format_duration (Some 59) = "59s".
Proof. vm_compute. reflexivity. Qed.
Example mm1 : gemini_app.mime_map !! ".m4a" = Some "audio/mp4".
Proof. vm_compute. reflexivity. Qed.

(** ** format_duration *)

Lemma format_duration_copies (seconds : option Z) :
  gemini_claude_app.format_duration seconds
  = youtube_downloader.format_duration seconds.
Proof. reflexivity. Qed.

(** C10. [format_duration] answers "Unknown" for [None] and for 0, never
    "0s"; for a strictly positive number of seconds [n] it prints the
    hours, minutes and seconds that make up [n], without the hours when
    they are zero and without the minutes when hours and minutes are
    both zero.  The copy of gemini_claude_app.py is the same function. *)
Theorem format_duration_spec (n : Z) (Hpos : 0 < n) :
  let hours := n / 3600 in
  let minutes := (n mod 3600) / 60 in
  let secs := n mod 60 in
  youtube_downloader.format_duration None = "Unknown"
  /\ youtube_downloader.format_duration (Some 0) = "Unknown"
  /\ youtube_downloader.format_duration (Some 0) <> "0s"
  /\ n = 3600 * hours + 60 * minutes + secs
  /\ 0 <= hours /\ 0 <= minutes < 60 /\ 0 <= secs < 60
  /\ youtube_downloader.format_duration (Some n) =
       (if 0 <? hours then
          Py.str_of_int hours +:+ "h " +:+ Py.str_of_int minutes +:+ "m "
            +:+ Py.str_of_int secs +:+ "s"
        else if 0 <? minutes then
          Py.str_of_int minutes +:+ "m " +:+ Py.str_of_int secs +:+ "s"
        else Py.str_of_int secs +:+ "s")
  /\ (forall seconds,
        gemini_claude_app.format_duration seconds
        = youtube_downloader.format_duration seconds).
Proof.
  intros hours minutes secs.
  split; [reflexivity|]. split; [reflexivity|]. split; [discriminate|].
  split; [subst hours minutes secs; Z.div_mod_to_equations; lia|].
  split; [subst hours; Z.div_mod_to_equations; lia|].
  split; [subst minutes; Z.div_mod_to_equations; lia|].
  split; [subst secs; Z.div_mod_to_equations; lia|].
  split; [|exact format_duration_copies].
  unfold youtube_downloader.format_duration.
  replace (n =? 0) with false by (symmetry; apply Z.eqb_neq; lia).
  reflexivity.
Qed.

Lemma format_duration_spec_witness :
  youtube_downloader.format_duration (Some 3725) = "1h 2m 5s"
  /\ youtube_downloader.format_duration (Some 0) = "Unknown".
Proof.
  pose proof (format_duration_spec 3725 ltac:(lia)) as H.
  cbv zeta in H. destruct H as (_ & H0 & _ & _ & _ & _ & _ & H & _).
  split; [rewrite H; vm_compute; reflexivity | exact H0].
Defined.

(** ** get_mime_type *)

Lemma mime_map_unknown (ext : string) :
  ext ∉ known_extensions -> transcribe_with_gemini.mime_map !! ext = None.
Proof. intros H. apply not_elem_of_list_to_map_1. exact H. Qed.

(** C6. The three scripts that classify the audio encoding compute the
    same MIME type for every path and every answer of [mimetypes]; when
    neither [mimetypes] nor the extension table recognizes an audio type
    the answer is "audio/wav". *)
Theorem get_mime_type_uniform (env : Env) (audio_path : string)
    (Hguess : guessed_audio env audio_path = false)
    (Hext : Py.lower (snd (Py.splitext audio_path)) ∉ known_extensions) :
  (forall env' path,
     transcribe_with_gemini.get_mime_type env' path
     = gemini_claude_app.get_mime_type env' path
     /\ gemini_claude_app.get_mime_type env' path
        = gemini_app.get_mime_type env' path)
  /\ transcribe_with_gemini.get_mime_type env audio_path = "audio/wav"
  /\ gemini_claude_app.get_mime_type env audio_path = "audio/wav"
  /\ gemini_app.get_mime_type env audio_path = "audio/wav".
Proof.
  split; [intros; split; reflexivity|].
  assert (transcribe_with_gemini.get_mime_type env audio_path = "audio/wav")
    as H; [|repeat split; exact H].
  unfold transcribe_with_gemini.get_mime_type.
  unfold guessed_audio in Hguess.
  rewrite (mime_map_unknown _ Hext).
  destruct (guess_type env audio_path) as [mime_type|]; [|reflexivity].
  rewrite Hguess. reflexivity.
Qed.

Lemma get_mime_type_uniform_witness :
  transcribe_with_gemini.get_mime_type (Scenarios.backend "" 0 "") "talk.opus"
  = "audio/wav".
Proof.
  apply (get_mime_type_uniform (Scenarios.backend "" 0 "") "talk.opus").
  - reflexivity.
  - vm_compute. intros H. repeat (apply elem_of_cons in H as [H|H]; [discriminate|]).
    inversion H.
Defined.

(** ** The instruction prompt *)

Lemma process_prompt_render (text task target_language : string) :
  gemini_claude_app.process_prompt text task target_language
  = render (select_template task) target_language text.
Proof.
  unfold gemini_claude_app.process_prompt, select_template.
  repeat (case String.eqb; [reflexivity|]). reflexivity.
Qed.

Lemma process_with_claude_log (env : Env) (text task target_language : string)
    (w : world) :
  log (snd (gemini_claude_app.process_with_claude env text task target_language w))
  = log w ++ [EvRun ["claude"; "--print";
                     gemini_claude_app.process_prompt text task target_language]].
Proof.
  unfold gemini_claude_app.process_with_claude. run.
  destruct (run_process env _ None) as [e|result]; cbn.
  - destruct (is_Exception e); reflexivity.
  - destruct (returncode result =? 0); reflexivity.
Qed.

Lemma process_with_gemini_log (env : Env) (text task target_language : string)
    (w : world) :
  log (snd (gemini_app.process_with_gemini env text task target_language w))
  = log w ++ [EvGenerate "gemini-2.0-flash"
                [Text (gemini_app.process_prompt text task target_language)]].
Proof.
  unfold gemini_app.process_with_gemini. run.
  destruct (genai_generate_content env _ _) as [e|[e|answer]]; cbn.
  - destruct (is_Exception e); reflexivity.
  - destruct (is_Exception e); reflexivity.
  - destruct (Py.truthy answer); reflexivity.
Qed.

(** C4. The prompt of the text-processing provider is a function of the
    text and the directive alone: it is the rendering of the template
    that the task selects, the same in both providers, and it is what
    reaches the backend whatever the environment and the state.  For
    the task translate, the language French and the text Hello world
    the prompt contains "translate the following transcript to French"
    and "Hello world", and an echoing backend returns it. *)
Theorem prompt_construction_pure (env : Env) (w : world)
    (text task target_language : string) :
  gemini_claude_app.process_prompt text task target_language
    = render (select_template task) target_language text
  /\ gemini_app.process_prompt text task target_language
    = render (select_template task) target_language text
  /\ log (snd (gemini_claude_app.process_with_claude env text task
                 target_language w))
    = log w ++ [EvRun ["claude"; "--print";
                       render (select_template task) target_language text]]
  /\ log (snd (gemini_app.process_with_gemini env text task target_language w))
    = log w ++ [EvGenerate "gemini-2.0-flash"
                  [Text (render (select_template task) target_language text)]]
  /\ Py.contains "translate the following transcript to French"
       (gemini_claude_app.process_prompt "Hello world" "translate" "French")
     = true
  /\ Py.contains "Hello world"
       (gemini_claude_app.process_prompt "Hello world" "translate" "French")
     = true
  /\ Py.contains "translate the following transcript to French"
       (gemini_app.process_prompt "Hello world" "translate" "French") = true
  /\ Py.contains "Hello world"
       (gemini_app.process_prompt "Hello world" "translate" "French") = true
  /\ fst (gemini_app.process_with_gemini Scenarios.echo "Hello world"
            "translate" "French" w)
     = Return (Some (gemini_app.process_prompt "Hello world" "translate"
                       "French"))
  /\ fst (gemini_claude_app.process_with_claude Scenarios.echo "Hello world"
            "translate" "French" w)
     = Return (Some (gemini_claude_app.process_prompt "Hello world"
                       "translate" "French")).
Proof.
  split; [apply process_prompt_render|].
  split; [apply process_prompt_render|].
  split; [rewrite <- process_prompt_render; apply process_with_claude_log|].
  split; [rewrite <- process_prompt_render; apply process_with_gemini_log|].
  repeat split; vm_compute; reflexivity.
Qed.

(** ** The remote transcription and the command-line summary *)

(** The claim of C9 fails on the code: an interrupt that arrives while
    the service or the tool is being called is not an instance of
    [Exception], and both functions let it through to the caller. *)
Lemma interrupt_escapes :
  fst (transcribe_with_gemini.transcribe_with_gemini Hosts.interrupted
         "talk.mp3" (Scenarios.start []))
    = Raise KeyboardInterrupt
  /\ fst (transcribe_with_gemini.summarize_with_claude Hosts.interrupted
            "some text" "summarize" (Scenarios.start []))
    = Raise KeyboardInterrupt.
Proof. split; vm_compute; reflexivity. Qed.

(** C9, as the code has it.  When every error that a backend call
    raises is an instance of [Exception], [transcribe_with_gemini] and
    [summarize_with_claude] of transcribe_with_gemini.py always return:
    the produced text, or [None] when a backend call raised or the
    command-line tool exited with a non-zero status, and no exception
    reaches the caller. *)
Theorem gemini_claude_total (env : Env) (Hexn : raises_only_Exception env)
    (audio_path text task : string) (w : world) :
  fst (transcribe_with_gemini.transcribe_with_gemini env audio_path w)
    = Return (gemini_answer env audio_path)
  /\ fst (transcribe_with_gemini.summarize_with_claude env text task w)
    = Return (claude_answer env text task).
Proof.
  destruct Hexn as (Hup & Hgen & Htext & Hdel & Hrun). split.
  - unfold transcribe_with_gemini.transcribe_with_gemini, gemini_answer. run.
    destruct (genai_upload_file env _ _) as [e|name] eqn:Eup; cbn.
    { rewrite (Hup _ _ _ Eup). reflexivity. }
    fold (transcribe_request name).
    destruct (genai_generate_content env _ _) as [e|response] eqn:Egen; cbn.
    { rewrite (Hgen _ _ _ Egen). reflexivity. }
    destruct (genai_delete_file env name) as [e|[]] eqn:Edel; cbn.
    { rewrite (Hdel _ _ Edel). reflexivity. }
    destruct response as [e|answer]; cbn; [|reflexivity].
    rewrite (Htext _ _ _ Egen). reflexivity.
  - unfold transcribe_with_gemini.summarize_with_claude, claude_answer. run.
    destruct (run_process env _ None) as [e|result] eqn:Erun; cbn.
    { rewrite (Hrun _ _ _ Erun). reflexivity. }
    destruct (returncode result =? 0); reflexivity.
Qed.

Lemma generate_refused_only_Exception :
  raises_only_Exception Scenarios.generate_refused.
Proof.
  repeat split; intros; cbn in *;
    repeat match goal with
      | H : inl _ = inl _ |- _ => inversion H; subst; clear H
      | H : inr _ = inl _ |- _ => discriminate H
      | H : inr _ = inr _ |- _ => discriminate H
      | H : inl _ = inr _ |- _ => discriminate H
      end; reflexivity.
Qed.

Lemma gemini_claude_total_witness :
  fst (transcribe_with_gemini.transcribe_with_gemini Scenarios.generate_refused
         "talk.mp3" (Scenarios.start []))
    = Return None
  /\ fst (transcribe_with_gemini.summarize_with_claude
            Scenarios.generate_refused "some text" "summarize"
            (Scenarios.start []))
    = Return (Some "").
Proof.
  exact (gemini_claude_total Scenarios.generate_refused
           generate_refused_only_Exception "talk.mp3" "some text" "summarize"
           (Scenarios.start [])).
Defined.

(** X20. On the path where every call succeeds the uploaded file is
    deleted. *)
Lemma upload_released_on_success (env : Env) (audio_path name : string)
    (response : exn + string) (w : world) :
  genai_upload_file env audio_path
    (transcribe_with_gemini.get_mime_type env audio_path) = inr name ->
  genai_generate_content env "gemini-1.5-flash" (transcribe_request name)
    = inr response ->
  genai_delete_file env name = inr tt ->
  EvDelete name
    ∈ log (snd (transcribe_with_gemini.transcribe_with_gemini env audio_path w)).
Proof.
  intros Hup Hgen Hdel.
  unfold transcribe_with_gemini.transcribe_with_gemini. run.
  rewrite Hup; cbn. fold (transcribe_request name). rewrite Hgen; cbn.
  rewrite Hdel; cbn.
  destruct response as [e|answer]; cbn; [destruct (is_Exception e)|];
    cbn.
  all: apply elem_of_app; right; apply list_elem_of_singleton; reflexivity.
Qed.

(** C2. When the transcription request raises after the upload was
    accepted, [transcribe_with_gemini] returns [None] and the uploaded
    file has not been deleted: the log holds the upload and the request
    and no deletion.  Both copies of the function behave so. *)
Theorem upload_leaked_when_generate_raises :
  let w := Scenarios.start [("talk.mp3", "")] in
  let run1 :=
    transcribe_with_gemini.transcribe_with_gemini Scenarios.generate_refused
      "talk.mp3" w in
  let run2 :=
    gemini_claude_app.transcribe_with_gemini Scenarios.generate_refused
      "talk.mp3" w in
  fst run1 = Return None
  /\ log (snd run1)
     = [ EvUpload "talk.mp3" "audio/mpeg" "files/a1";
         EvGenerate "gemini-1.5-flash" (transcribe_request "files/a1") ]
  /\ (EvDelete "files/a1" ∉ log (snd run1))
  /\ fst run2 = Return None
  /\ log (snd run2) = log (snd run1).
Proof.
  cbv zeta. split; [vm_compute; reflexivity|].
  assert (log (snd (transcribe_with_gemini.transcribe_with_gemini
                      Scenarios.generate_refused "talk.mp3"
                      (Scenarios.start [("talk.mp3", "")])))
          = [ EvUpload "talk.mp3" "audio/mpeg" "files/a1";
              EvGenerate "gemini-1.5-flash" (transcribe_request "files/a1") ])
    as Hlog by (vm_compute; reflexivity).
  split; [exact Hlog|]. split.
  - rewrite Hlog. intros H.
    repeat (apply elem_of_cons in H as [H|H]; [discriminate|]). inversion H.
  - split; vm_compute; reflexivity.
Qed.

(** ** Facts about strip *)

Lemma all_space_app (s t : string) :
  all_space (s +:+ t) = all_space s && all_space t.
Proof.
  induction s as [|c s IH]; [reflexivity|].
  rewrite append_cons. cbn [all_space]. rewrite IH, andb_assoc. reflexivity.
Qed.

Lemma rstrip_cons_nonspace (c : ascii) (s : string) :
  Py.isspace c = false -> Py.rstrip (String c s) <> "".
Proof.
  intros Hc. cbn [Py.rstrip]. destruct (Py.rstrip s); [rewrite Hc|]; discriminate.
Qed.

Lemma strip_blank_iff (s : string) : Py.strip s = "" <-> all_space s = true.
Proof.
  unfold Py.strip. induction s as [|c s IH]; [split; reflexivity|].
  cbn [Py.lstrip all_space]. destruct (Py.isspace c) eqn:Hc.
  - rewrite IH. reflexivity.
  - split; [|discriminate]. intros H. now apply rstrip_cons_nonspace in H.
Qed.

Lemma length_lstrip (s : string) :
  (String.length (Py.lstrip s) <= String.length s)%nat.
Proof.
  induction s as [|c s IH]; [reflexivity|].
  cbn [Py.lstrip]. destruct (Py.isspace c); cbn [String.length]; lia.
Qed.

Lemma length_rstrip (s : string) :
  (String.length (Py.rstrip s) <= String.length s)%nat.
Proof.
  induction s as [|c s IH]; [reflexivity|].
  cbn [Py.rstrip]. destruct (Py.rstrip s) as [|d r].
  - destruct (Py.isspace c); cbn [String.length] in *; lia.
  - cbn [String.length] in *. lia.
Qed.

(** A text that [strip] leaves unchanged starts with a character that
    is not white space, and [rstrip] leaves it unchanged too. *)
Lemma strip_fixed_edges (t : string) :
  t <> "" -> Py.strip t = t ->
  (exists c t', t = String c t' /\ Py.isspace c = false) /\ Py.rstrip t = t.
Proof.
  intros Hne Hfix. destruct t as [|c t']; [contradiction|].
  unfold Py.strip in Hfix. cbn [Py.lstrip] in Hfix.
  destruct (Py.isspace c) eqn:Hc.
  - exfalso.
    pose proof (length_rstrip (Py.lstrip t')) as H1.
    pose proof (length_lstrip t') as H2.
    rewrite Hfix in H1. cbn [String.length] in H1. lia.
  - split; [exists c, t'; split; [reflexivity | exact Hc] | exact Hfix].
Qed.

Lemma rstrip_app_space (s : string) : Py.rstrip (s +:+ " ") = Py.rstrip s.
Proof.
  induction s as [|c s IH]; [reflexivity|].
  rewrite append_cons. cbn [Py.rstrip]. rewrite IH. reflexivity.
Qed.

Lemma rstrip_app_nonempty (a b : string) :
  Py.rstrip b <> "" -> Py.rstrip (a +:+ b) = a +:+ Py.rstrip b.
Proof.
  intros Hb. induction a as [|c a IH]; [reflexivity|].
  rewrite !append_cons. cbn [Py.rstrip]. rewrite IH.
  destruct (a +:+ Py.rstrip b) as [|d r] eqn:E; [|reflexivity].
  destruct a; [|rewrite append_cons in E; discriminate].
  rewrite append_nil_l in E. contradiction.
Qed.

Lemma join_cons2 (sep x y : string) (l : list string) :
  Py.join sep (x :: y :: l) = x +:+ sep +:+ Py.join sep (y :: l).
Proof. reflexivity. Qed.

Lemma join_clean (texts : list string) :
  texts <> [] -> Forall clean texts ->
  (exists c r, Py.join " " texts = String c r /\ Py.isspace c = false)
  /\ Py.rstrip (Py.join " " texts) = Py.join " " texts.
Proof.
  induction texts as [|t [|u rest] IH]; intros Hne Hall; [contradiction| |].
  - apply Forall_inv in Hall. destruct Hall as [Ht Hs].
    exact (strip_fixed_edges t Ht Hs).
  - pose proof (Forall_inv Hall) as [Ht Hs].
    apply Forall_inv_tail in Hall.
    destruct (IH ltac:(discriminate) Hall) as [(c & r & Hj & Hc) Hr].
    destruct (strip_fixed_edges t Ht Hs) as [(d & t' & -> & Hd) _].
    rewrite join_cons2. split.
    + exists d, (t' +:+ " " +:+ Py.join " " (u :: rest)).
      rewrite append_cons. split; [reflexivity | exact Hd].
    + rewrite <- append_assoc.
      rewrite rstrip_app_nonempty; [now rewrite Hr|].
      rewrite Hr, Hj. discriminate.
Qed.

Lemma fold_left_spaced (segments : list Segment) (acc : string) :
  fold_left
    (fun transcription segment => transcription +:+ (seg_text segment +:+ " "))
    segments acc
  = acc +:+ spaced segments.
Proof.
  revert acc. induction segments as [|seg rest IH]; intros acc.
  - cbn. now rewrite append_nil_r.
  - cbn [fold_left spaced fold_right]. rewrite IH.
    rewrite !append_assoc. reflexivity.
Qed.

Lemma spaced_join (segments : list Segment) :
  segments <> [] ->
  spaced segments = Py.join " " (map seg_text segments) +:+ " ".
Proof.
  induction segments as [|seg [|seg2 rest] IH]; intros Hne; [contradiction| |].
  - cbn. reflexivity.
  - change (spaced (seg :: seg2 :: rest))
      with (seg_text seg +:+ " " +:+ spaced (seg2 :: rest)).
    rewrite IH by discriminate.
    change (map seg_text (seg :: seg2 :: rest))
      with (seg_text seg :: seg_text seg2 :: map seg_text rest).
    rewrite join_cons2, !append_assoc. reflexivity.
Qed.

Lemma spaced_all_space (segments : list Segment) :
  Forall (fun segment => Py.strip (seg_text segment) = "") segments ->
  all_space (spaced segments) = true.
Proof.
  induction 1 as [|seg rest Hseg _ IH]; [reflexivity|].
  cbn [spaced fold_right]. rewrite !all_space_app.
  apply strip_blank_iff in Hseg. rewrite Hseg. exact IH.
Qed.

Lemma strip_spaced_clean (segments : list Segment) :
  Forall (fun segment => clean (seg_text segment)) segments ->
  Py.strip (spaced segments) = Py.join " " (map seg_text segments).
Proof.
  intros Hall. destruct segments as [|seg rest]; [reflexivity|].
  rewrite spaced_join by discriminate.
  assert (Forall clean (map seg_text (seg :: rest))) as Hclean
    by (apply Forall_map; exact Hall).
  destruct (join_clean (map seg_text (seg :: rest))) as [(c & r & Hj & Hc) Hr];
    [discriminate | exact Hclean |].
  unfold Py.strip. rewrite Hj, append_cons. cbn [Py.lstrip]. rewrite Hc.
  rewrite <- append_cons, <- Hj. rewrite rstrip_app_space. exact Hr.
Qed.

Lemma fold_left_collect {A} (f : Segment -> A) (segments : list Segment)
    (acc : list A) :
  fold_left (fun transcription segment => transcription ++ [f segment])
    segments acc
  = acc ++ map f segments.
Proof.
  revert acc. induction segments as [|seg rest IH]; intros acc; cbn.
  - now rewrite app_nil_r.
  - rewrite IH, <- app_assoc. reflexivity.
Qed.

Lemma fold_left_collect_count {A} (f : Segment -> A) (segments : list Segment)
    (acc : list A) (n : Z) :
  fold_left (fun state segment => (fst state ++ [f segment], snd state + 1))
    segments (acc, n)
  = (acc ++ map f segments, n + Z.of_nat (length segments)).
Proof.
  revert acc n. induction segments as [|seg rest IH]; intros acc n.
  - cbn. rewrite app_nil_r. f_equal. lia.
  - cbn [fold_left fst snd map length]. rewrite IH, <- app_assoc.
    f_equal. lia.
Qed.

(** ** Blank transcripts *)

(** What the local variants compute from the emitted segments, for any
    texts. *)
Lemma transcribe_and_summarize_result (env : Env)
    (audio_file model_size : string) (segments : list Segment)
    (info : TranscriptionInfo) (w : world) :
  faster_whisper_transcribe env model_size audio_file 5 = inr (segments, info) ->
  transcribe_and_summarize.transcribe_audio env audio_file model_size w
  = (Return (Py.strip (spaced segments)), w).
Proof.
  intros H. unfold transcribe_and_summarize.transcribe_audio. run.
  rewrite H. cbn. rewrite fold_left_spaced, append_nil_l. reflexivity.
Qed.

Lemma quick_transcribe_result (env : Env) (audio_file model_size : string)
    (segments : list Segment) (info : TranscriptionInfo) (w : world) :
  faster_whisper_transcribe env model_size audio_file 1 = inr (segments, info) ->
  quick_transcribe.transcribe_audio env audio_file model_size w
  = (Return (Py.join " " (map seg_text segments)), w).
Proof.
  intros H. unfold quick_transcribe.transcribe_audio. run.
  rewrite H. cbn. rewrite fold_left_collect. reflexivity.
Qed.

Lemma youtube_transcribe_app_result (env : Env)
    (audio_file model_size : string) (segments : list Segment)
    (info : TranscriptionInfo) (w : world) :
  faster_whisper_transcribe env model_size audio_file 2 = inr (segments, info) ->
  youtube_transcribe_app.transcribe_audio env audio_file model_size w
  = (Return (Py.join " " (map (fun s => Py.strip (seg_text s)) segments),
             language info, Z.of_nat (length segments)), w).
Proof.
  intros H. unfold youtube_transcribe_app.transcribe_audio. run.
  rewrite H. cbn. rewrite fold_left_collect_count. reflexivity.
Qed.

(** The only check on the transcript is the caller's: [main] of
    transcribe_with_gemini.py exits with status 1 when the transcript is
    [None] or empty; a whitespace-only transcript passes it. *)
Lemma main_rejects_empty_transcript (env : Env)
    (args : transcribe_with_gemini.Args) (answer : option string)
    (w w1 : world) :
  is_Some (fs w !! transcribe_with_gemini.audio_file args) ->
  transcribe_with_gemini.transcribe_with_gemini env
    (transcribe_with_gemini.audio_file args) w = (Return answer, w1) ->
  Py.truthy_opt answer = false ->
  transcribe_with_gemini.main_pipeline env args w = (Raise (SystemExit 1), w1).
Proof.
  intros Haudio Hrun Hfalsy.
  unfold transcribe_with_gemini.main_pipeline. unfold bind at 1.
  unfold path_exists at 1. rewrite bool_decide_eq_true_2 by exact Haudio.
  cbn [negb]. unfold bind at 1. rewrite Hrun, Hfalsy. reflexivity.
Qed.

Example main_accepts_whitespace_transcript :
  fst (transcribe_with_gemini.main_pipeline (Scenarios.backend "   " 1 "")
         (transcribe_with_gemini.mkArgs "silence.wav"
            transcribe_with_gemini.summarize None)
         (Scenarios.start [("silence.wav", "audio")]))
  = Return ("   ", "   ").
Proof. vm_compute. reflexivity. Qed.

(** The claim of C1 fails on the code: a silent recording, for which the
    backend yields an empty or a whitespace-only text, is transcribed
    with success to that blank text, by the remote variant and by the
    local one. *)
Lemma blank_transcript_is_returned :
  fst (transcribe_with_gemini.transcribe_with_gemini
         (Scenarios.backend "" 0 "") "silence.wav" (Scenarios.start []))
    = Return (Some "")
  /\ fst (transcribe_with_gemini.transcribe_with_gemini
            (Scenarios.backend "   " 0 "") "silence.wav" (Scenarios.start []))
    = Return (Some "   ")
  /\ fst (transcribe_and_summarize.transcribe_audio
            (Scenarios.hears [mkSegment "  "] "en") "silence.wav" "base"
            (Scenarios.start []))
    = Return "".
Proof. repeat split; vm_compute; reflexivity. Qed.

(** C1, as the code has it.  When the service accepts the upload, the
    request and the deletion, [transcribe_with_gemini] returns the text
    of the response unchanged, also when that text is empty or
    whitespace-only; when every emitted segment is blank the local
    [transcribe_audio] returns the empty string.  Both are ordinary
    results: neither variant has an empty-result failure. *)
Theorem blank_text_is_a_success (env : Env)
    (audio_path name text audio_file model_size : string)
    (segments : list Segment) (info : TranscriptionInfo) (w : world)
    (Hup : genai_upload_file env audio_path
             (transcribe_with_gemini.get_mime_type env audio_path) = inr name)
    (Hgen : genai_generate_content env "gemini-1.5-flash"
              (transcribe_request name) = inr (inr text))
    (Hdel : genai_delete_file env name = inr tt)
    (Hblank : Py.strip text = "")
    (Hseg : faster_whisper_transcribe env model_size audio_file 5
            = inr (segments, info))
    (Hsegblank :
       Forall (fun segment => Py.strip (seg_text segment) = "") segments) :
  fst (transcribe_with_gemini.transcribe_with_gemini env audio_path w)
    = Return (Some text)
  /\ fst (transcribe_and_summarize.transcribe_audio env audio_file model_size w)
    = Return "".
Proof.
  split.
  - unfold transcribe_with_gemini.transcribe_with_gemini. run.
    rewrite Hup; cbn. fold (transcribe_request name). rewrite Hgen; cbn.
    rewrite Hdel; cbn. reflexivity.
  - rewrite (transcribe_and_summarize_result _ _ _ _ _ _ Hseg). cbn [fst].
    f_equal. apply strip_blank_iff, spaced_all_space, Hsegblank.
Qed.

Lemma blank_text_is_a_success_witness :
  fst (transcribe_with_gemini.transcribe_with_gemini
         (Scenarios.hears [mkSegment " "; mkSegment ""] "en") "silence.wav"
         (Scenarios.start []))
    = Return (Some "")
  /\ fst (transcribe_and_summarize.transcribe_audio
            (Scenarios.hears [mkSegment " "; mkSegment ""] "en") "silence.wav"
            "base" (Scenarios.start []))
    = Return "".
Proof.
  apply (blank_text_is_a_success
           (Scenarios.hears [mkSegment " "; mkSegment ""] "en")
           "silence.wav" "files/a1" "" "silence.wav" "base"
           [mkSegment " "; mkSegment ""] (mkInfo "en")).
  - reflexivity.
  - reflexivity.
  - reflexivity.
  - reflexivity.
  - reflexivity.
  - repeat constructor.
Defined.

(** ** Concatenation of the segments *)

(** The claim of C5 fails on the code: segment texts that carry white
    space (faster-whisper emits them with a leading space) come out with
    doubled spaces, and transcribe_and_summarize.py does not return the
    texts joined by one space; a blank segment doubles the space in
    youtube_transcribe_app.py too. *)
Lemma segments_not_single_spaced :
  let speech := [mkSegment " Hello"; mkSegment " world"] in
  fst (transcribe_and_summarize.transcribe_audio (Scenarios.hears speech "en")
         "talk.mp3" "base" (Scenarios.start []))
    = Return "Hello  world"
  /\ Py.join " " (map seg_text speech) = " Hello  world"
  /\ fst (quick_transcribe.transcribe_audio (Scenarios.hears speech "en")
            "talk.mp3" "tiny" (Scenarios.start []))
    = Return " Hello  world"
  /\ fst (youtube_transcribe_app.transcribe_audio
            (Scenarios.hears [mkSegment "Hello"; mkSegment " "; mkSegment "world"]
               "en")
            "talk.mp3" "base" (Scenarios.start []))
    = Return ("Hello  world", "en", 3).
Proof. repeat split; vm_compute; reflexivity. Qed.

(** C5, as the code has it.  For every finite sequence of segments whose
    texts are not empty and have no white space at their ends, the three
    local variants return the texts joined in emission order by one
    space; [transcribe_audio] of youtube_transcribe_app.py returns the
    detected language and the number of segments with it, the other two
    return the text alone. *)
Theorem clean_segments_joined (env : Env) (audio_file model_size : string)
    (segments : list Segment) (info : TranscriptionInfo) (w : world)
    (H5 : faster_whisper_transcribe env model_size audio_file 5
          = inr (segments, info))
    (H1 : faster_whisper_transcribe env model_size audio_file 1
          = inr (segments, info))
    (H2 : faster_whisper_transcribe env model_size audio_file 2
          = inr (segments, info))
    (Hclean : Forall (fun segment => clean (seg_text segment)) segments) :
  fst (youtube_transcribe_app.transcribe_audio env audio_file model_size w)
    = Return (Py.join " " (map seg_text segments), language info,
              Z.of_nat (length segments))
  /\ fst (transcribe_and_summarize.transcribe_audio env audio_file model_size w)
    = Return (Py.join " " (map seg_text segments))
  /\ fst (quick_transcribe.transcribe_audio env audio_file model_size w)
    = Return (Py.join " " (map seg_text segments)).
Proof.
  split; [|split].
  - rewrite (youtube_transcribe_app_result _ _ _ _ _ _ H2). cbn [fst].
    assert (map (fun s => Py.strip (seg_text s)) segments
            = map seg_text segments) as ->; [|reflexivity].
    apply map_ext_Forall.
    eapply Forall_impl; [exact Hclean|]. intros seg [_ Hs]. exact Hs.
  - rewrite (transcribe_and_summarize_result _ _ _ _ _ _ H5). cbn [fst].
    f_equal. apply strip_spaced_clean, Hclean.
  - rewrite (quick_transcribe_result _ _ _ _ _ _ H1). reflexivity.
Qed.

Lemma clean_segments_joined_witness :
  let speech := [mkSegment "Hello"; mkSegment "big world"; mkSegment "bye."] in
  fst (youtube_transcribe_app.transcribe_audio (Scenarios.hears speech "en")
         "talk.mp3" "base" (Scenarios.start []))
    = Return ("Hello big world bye.", "en", 3)
  /\ fst (transcribe_and_summarize.transcribe_audio
            (Scenarios.hears speech "en") "talk.mp3" "base" (Scenarios.start []))
    = Return "Hello big world bye."
  /\ fst (quick_transcribe.transcribe_audio (Scenarios.hears speech "en")
            "talk.mp3" "base" (Scenarios.start []))
    = Return "Hello big world bye.".
Proof.
  cbv zeta.
  apply (clean_segments_joined
           (Scenarios.hears
              [mkSegment "Hello"; mkSegment "big world"; mkSegment "bye."] "en")
           "talk.mp3" "base"
           [mkSegment "Hello"; mkSegment "big world"; mkSegment "bye."]
           (mkInfo "en") (Scenarios.start [])).
  - reflexivity.
  - reflexivity.
  - reflexivity.
  - repeat constructor; discriminate.
Defined.

(** ** The downloaded file *)

Lemma download_copies (env : Env) (youtube_url : string) (w : world) :
  youtube_downloader.download_audio env youtube_url w
  = gemini_claude_app.download_youtube_audio env youtube_url w.
Proof. reflexivity. Qed.

Lemma makedirs_log (env : Env) (p : string) (w : world) :
  log (snd (makedirs env p w)) = log w.
Proof.
  unfold makedirs. destruct (os_makedirs env p (fs w)); [reflexivity|].
  destruct (fs w !! p); reflexivity.
Qed.

Lemma makedirs_outcome (env : Env) (p : string) (w : world) :
  fst (makedirs env p w)
  = match os_makedirs env p (fs w) with
    | inl e => Raise e
    | inr _ => Return tt
    end.
Proof.
  unfold makedirs. destruct (os_makedirs env p (fs w)); [reflexivity|].
  destruct (fs w !! p); reflexivity.
Qed.

Lemma download_unfold (env : Env) (youtube_url : string) (w : world) :
  gemini_claude_app.download_youtube_audio env youtube_url w
  = match os_makedirs env (download_dir env) (fs w) with
    | inl e => (Raise e, w)
    | inr _ =>
        match extraction env youtube_url w with
        | (inl e, after) => (Raise (rethrown e), mkWorld after (log w))
        | (inr info, after) =>
            match ydl_prepare_filename env info with
            | inl e => (Raise (rethrown e), mkWorld after (log w))
            | inr declared =>
                let title := default "Unknown" (info_title info) in
                let duration := default (Some 0) (info_duration info) in
                let corrected := Py.replace ".webm" ".m4a" declared in
                if bool_decide (is_Some (after !! declared))
                then (Return (declared, title, duration),
                      mkWorld after (log w))
                else if bool_decide (is_Some (after !! corrected))
                then (Return (corrected, title, duration),
                      mkWorld after (log w))
                else (Raise (Exception "Error: Failed to download audio"),
                      mkWorld after (log w))
            end
        end
    end.
Proof.
  unfold extraction, files_before_download, download_dir.
  unfold gemini_claude_app.download_youtube_audio.
  unfold bind at 1.
  pose proof (makedirs_log env (Py.path_join (getcwd env) "downloads") w)
    as Hlog.
  pose proof (makedirs_outcome env (Py.path_join (getcwd env) "downloads") w)
    as Hout.
  destruct (os_makedirs env (Py.path_join (getcwd env) "downloads") (fs w))
    as [e0|[]] eqn:Emk.
  { unfold makedirs in *. rewrite Emk. reflexivity. }
  destruct (makedirs env (Py.path_join (getcwd env) "downloads") w)
    as [o w0].
  cbn [fst snd] in *. subst o. run. rewrite Hlog.
  destruct (ydl_extract_info env _ _ _ (fs w0)) as [[e|info] after]; cbn.
  { unfold rethrown. destruct (is_Exception e); reflexivity. }
  destruct (ydl_prepare_filename env info) as [e|declared]; cbn.
  { unfold rethrown. destruct (is_Exception e); reflexivity. }
  destruct (bool_decide (is_Some (after !! declared))) eqn:Efound; cbn.
  { rewrite Efound. reflexivity. }
  destruct (bool_decide (is_Some (after !! Py.replace ".webm" ".m4a" declared)))
    eqn:Em4a; cbn.
  - rewrite Em4a. reflexivity.
  - rewrite Efound. reflexivity.
Qed.

Lemma download_returns_existing (env : Env) (youtube_url : string) (w : world)
    (path title : string) (duration : option Z) :
  fst (gemini_claude_app.download_youtube_audio env youtube_url w)
    = Return (path, title, duration) ->
  is_Some (fs (snd (gemini_claude_app.download_youtube_audio env youtube_url w))
             !! path).
Proof.
  rewrite download_unfold.
  destruct (os_makedirs env (download_dir env) (fs w)) as [e0|[]];
    [discriminate|].
  destruct (extraction env youtube_url w) as [[e|info] after]; [discriminate|].
  destruct (ydl_prepare_filename env info) as [e|declared]; [discriminate|].
  cbv zeta.
  destruct (bool_decide (is_Some (after !! declared))) eqn:Efound.
  { cbn. intros H. inversion H; subst.
    apply bool_decide_eq_true in Efound. exact Efound. }
  destruct (bool_decide (is_Some (after !! Py.replace ".webm" ".m4a" declared)))
    eqn:Em4a; [|discriminate].
  cbn. intros H. inversion H; subst.
  apply bool_decide_eq_true in Em4a. exact Em4a.
Qed.

Lemma download_probes (env : Env) (youtube_url : string) (w : world)
    (info : YInfo) (declared : string) (after : gmap string string) :
  os_makedirs env (download_dir env) (fs w) = inr tt ->
  extraction env youtube_url w = (inr info, after) ->
  ydl_prepare_filename env info = inr declared ->
  after !! declared = None ->
  gemini_claude_app.download_youtube_audio env youtube_url w
  = (if bool_decide (is_Some (after !! Py.replace ".webm" ".m4a" declared))
     then Return (Py.replace ".webm" ".m4a" declared,
                  default "Unknown" (info_title info),
                  default (Some 0) (info_duration info))
     else Raise (Exception "Error: Failed to download audio"),
     mkWorld after (log w)).
Proof.
  intros Hmk Hext Hname Hdeclared.
  rewrite download_unfold, Hmk, Hext, Hname. cbv zeta.
  rewrite bool_decide_eq_false_2
    by (rewrite Hdeclared; intros [x Hx]; discriminate).
  destruct (bool_decide _); reflexivity.
Qed.

(** What the probe does.  Whenever the download returns, the returned
    path exists in the file system at that moment.  When the directory
    can be made, the file name the extractor declares does not exist and
    the name with every ".webm" in it replaced by ".m4a" does, that name
    is returned; when neither exists the download raises.
    [download_audio] of youtube_downloader.py and
    [download_youtube_audio] of gemini_claude_app.py are the same
    function. *)
Lemma probe_replaces_every_webm (env : Env) (youtube_url : string)
    (w : world) (info : YInfo) (declared : string)
    (after : gmap string string)
    (Hmakedirs : os_makedirs env (download_dir env) (fs w) = inr tt)
    (Hextract : extraction env youtube_url w = (inr info, after))
    (Hname : ydl_prepare_filename env info = inr declared)
    (Hmissing : after !! declared = None) :
  let corrected := Py.replace ".webm" ".m4a" declared in
  (forall env' url' w' path title duration,
      fst (gemini_claude_app.download_youtube_audio env' url' w')
        = Return (path, title, duration) ->
      is_Some
        (fs (snd (gemini_claude_app.download_youtube_audio env' url' w'))
           !! path))
  /\ (forall env' url' w',
        youtube_downloader.download_audio env' url' w'
        = gemini_claude_app.download_youtube_audio env' url' w')
  /\ (is_Some (after !! corrected) ->
      fst (gemini_claude_app.download_youtube_audio env youtube_url w)
        = Return (corrected, default "Unknown" (info_title info),
                  default (Some 0) (info_duration info))
      /\ fs (snd (gemini_claude_app.download_youtube_audio env youtube_url w))
         = after)
  /\ (after !! corrected = None ->
      fst (gemini_claude_app.download_youtube_audio env youtube_url w)
        = Raise (Exception "Error: Failed to download audio")).
Proof.
  intros corrected.
  split; [exact download_returns_existing|].
  split; [exact download_copies|].
  rewrite (download_probes _ _ _ _ _ _ Hmakedirs Hextract Hname Hmissing).
  fold corrected. split.
  - intros Hsome. rewrite bool_decide_eq_true_2 by exact Hsome.
    split; reflexivity.
  - intros Hnone. rewrite bool_decide_eq_false_2; [reflexivity|].
    rewrite Hnone. intros [x Hx]. discriminate.
Qed.

Lemma probe_replaces_every_webm_witness :
  fst (gemini_claude_app.download_youtube_audio
         (Scenarios.extracts "/home/user/downloads/clip.webm"
            Scenarios.only_m4a)
         "https://www.youtube.com/watch?v=abc" (Scenarios.start []))
  = Return ("/home/user/downloads/clip.m4a", "clip", Some 75).
Proof.
  pose proof (probe_replaces_every_webm
                (Scenarios.extracts "/home/user/downloads/clip.webm"
                   Scenarios.only_m4a)
                "https://www.youtube.com/watch?v=abc" (Scenarios.start [])
                (mkYInfo (Some "clip") (Some (Some 75)))
                "/home/user/downloads/clip.webm" Scenarios.only_m4a
                eq_refl eq_refl eq_refl ltac:(vm_compute; reflexivity)) as H.
  cbv zeta in H. destruct H as (_ & _ & H & _).
  destruct H as [H _]; [vm_compute; eauto | exact H].
Defined.

(** C7. The probe misses an existing file.  The extractor declares
    my.webm.tips.webm; that file does not exist and the file of the same
    name with its extension corrected, my.webm.tips.m4a, does.  The
    code replaces every ".webm" of the path, looks for my.m4a.tips.m4a,
    finds nothing and raises, in both copies of the function. *)
Theorem corrected_extension_not_found :
  let declared := "/home/user/downloads/my.webm.tips.webm" in
  let on_disk := "/home/user/downloads/my.webm.tips.m4a" in
  let env := Scenarios.extracts declared Hosts.tips_m4a in
  let url := "https://www.youtube.com/watch?v=abc" in
  let run :=
    gemini_claude_app.download_youtube_audio env url (Scenarios.start []) in
  fst (Py.splitext declared) +:+ ".m4a" = on_disk
  /\ fs (snd run) !! declared = None
  /\ fs (snd run) !! on_disk = Some "audio"
  /\ Py.replace ".webm" ".m4a" declared
     = "/home/user/downloads/my.m4a.tips.m4a"
  /\ fst run = Raise (Exception "Error: Failed to download audio")
  /\ youtube_downloader.download_audio env url (Scenarios.start []) = run.
Proof. cbv zeta. repeat split; vm_compute; reflexivity. Qed.

(** ** Truncation of the transcript *)

Lemma length_slice_to (n : nat) (s : string) :
  String.length (Py.slice_to n s) = Nat.min n (String.length s).
Proof.
  revert s. induction n as [|n IH]; intros [|c s]; cbn; try reflexivity.
  now rewrite IH.
Qed.

Lemma slice_to_prefix (n : nat) (s : string) :
  s = Py.slice_to n s +:+ Py.slice_from n s.
Proof.
  revert s. induction n as [|n IH]; intros [|c s]; try reflexivity.
  cbn [Py.slice_to Py.slice_from]. rewrite append_cons. f_equal. apply IH.
Qed.

Lemma summarize_with_claude_log (env : Env) (text language : string)
    (w : world) :
  log (snd (youtube_transcribe_app.summarize_with_claude env text language w))
  = log w ++ [EvRun ["claude";
                     youtube_transcribe_app.summarize_prompt text language]].
Proof.
  unfold youtube_transcribe_app.summarize_with_claude. run.
  destruct (run_process env _ _) as [e|result]; cbn; [reflexivity|].
  destruct (returncode result =? 0); reflexivity.
Qed.

Lemma process_with_claude_full_log (env : Env) (text language : string)
    (w : world) :
  log (snd (transcribe_full.process_with_claude env text language w))
  = log w ++ [EvRun ["claude"; transcribe_full.process_prompt text language]].
Proof.
  unfold transcribe_full.process_with_claude. run.
  destruct (run_process env _ _) as [e|result]; cbn; [reflexivity|].
  destruct (returncode result =? 0); reflexivity.
Qed.

(** The claim of C8 fails on the code: the functions take the text and
    the language only, and the limit is their own.  A caller who wants
    four characters sent gets all ten sent, and of a transcript of 2600
    characters 2500 are sent whatever the caller does. *)
Lemma truncation_limit_is_fixed :
  youtube_transcribe_app.summarize_prompt "0123456789" "en"
    <> prompt_with_limit youtube_template 4 "0123456789" "en"
  /\ youtube_transcribe_app.summarize_prompt "0123456789" "en"
     = youtube_template "en" "0123456789"
  /\ ~ (exists language,
          youtube_transcribe_app.summarize_prompt (Py.times "a" 2600) language
          = youtube_template language (Py.times "a" 2600)).
Proof.
  split; [vm_compute; discriminate|]. split; [vm_compute; reflexivity|].
  intros [language H].
  apply (f_equal String.length) in H. revert H.
  unfold youtube_transcribe_app.summarize_prompt, youtube_template.
  destruct (negb (language =? "en")%string).
  - generalize ("This is a transcription in " +:+ language).
    intros s H.
    assert (forall a b, String.length (a +:+ b)
                        = (String.length a + String.length b)%nat) as Hlen.
    { induction a as [|c a IH]; intros b; [reflexivity|].
      rewrite append_cons. cbn [String.length]. now rewrite IH. }
    rewrite !Hlen in H. rewrite length_slice_to in H.
    assert (String.length (Py.times "a" 2600) = 2600%nat) as E
      by (vm_compute; reflexivity).
    rewrite E in H. lia.
  - vm_compute. discriminate.
Qed.

(** C8, as the code has it.  The command-line variants quote a fixed
    number of characters of the transcript, 2500 in
    youtube_transcribe_app.py and 3000 in transcribe_full.py, whatever
    their arguments; the remote-API variant sends the whole text. *)
Theorem truncation_is_hard_coded (env : Env) (w : world)
    (text language task target_language : string) :
  youtube_transcribe_app.summarize_prompt text language
    = prompt_with_limit youtube_template 2500 text language
  /\ transcribe_full.process_prompt text language
    = prompt_with_limit full_template 3000 text language
  /\ log (snd (youtube_transcribe_app.summarize_with_claude env text language w))
    = log w ++ [EvRun ["claude";
                       youtube_template language (Py.slice_to 2500 text)]]
  /\ log (snd (transcribe_full.process_with_claude env text language w))
    = log w ++ [EvRun ["claude";
                       full_template language (Py.slice_to 3000 text)]]
  /\ String.length (Py.slice_to 2500 text)
     = Nat.min 2500 (String.length text)
  /\ String.length (Py.slice_to 3000 text)
     = Nat.min 3000 (String.length text)
  /\ log (snd (gemini_app.process_with_gemini env text task target_language w))
    = log w ++ [EvGenerate "gemini-2.0-flash"
                  [Text (render (select_template task) target_language text)]]
  /\ (exists instruction,
        render (select_template task) target_language text
        = instruction +:+ text).
Proof.
  split; [reflexivity|]. split; [reflexivity|].
  split; [apply summarize_with_claude_log|].
  split; [apply process_with_claude_full_log|].
  split; [apply length_slice_to|]. split; [apply length_slice_to|].
  split; [rewrite <- process_prompt_render; apply process_with_gemini_log|].
  destruct (select_template task); cbn [render]; eexists;
    rewrite <- ?append_assoc; reflexivity.
Qed.

(** ** The fallback when processing fails *)





(** ** More facts about strip *)

Lemma rstrip_cons (c : ascii) (s : string) :
  Py.rstrip (String c s)
  = match Py.rstrip s with
    | EmptyString =>
        if Py.isspace c then EmptyString else String c EmptyString
    | String d r => String c (String d r)
    end.
Proof. reflexivity. Qed.

Lemma rstrip_idempotent (s : string) : Py.rstrip (Py.rstrip s) = Py.rstrip s.
Proof.
  induction s as [|c s IH]; [reflexivity|].
  rewrite rstrip_cons. destruct (Py.rstrip s) as [|d r] eqn:E.
  - destruct (Py.isspace c) eqn:Hc; [reflexivity|].
    rewrite rstrip_cons. cbn [Py.rstrip]. rewrite Hc. reflexivity.
  - rewrite rstrip_cons, IH. reflexivity.
Qed.

Lemma lstrip_head (s : string) :
  Py.lstrip s = ""
  \/ exists c r, Py.lstrip s = String c r /\ Py.isspace c = false.
Proof.
  induction s as [|c s IH]; [left; reflexivity|].
  cbn [Py.lstrip]. destruct (Py.isspace c) eqn:Hc; [exact IH|].
  right. exists c, s. split; [reflexivity | exact Hc].
Qed.

Lemma rstrip_keeps_head (c : ascii) (r : string) :
  Py.isspace c = false -> exists r', Py.rstrip (String c r) = String c r'.
Proof.
  intros Hc. cbn [Py.rstrip]. destruct (Py.rstrip r) as [|d r'].
  - rewrite Hc. eexists. reflexivity.
  - eexists. reflexivity.
Qed.

Lemma strip_idempotent (s : string) : Py.strip (Py.strip s) = Py.strip s.
Proof.
  unfold Py.strip.
  destruct (lstrip_head s) as [E | (c & r & E & Hc)]; rewrite E;
    [reflexivity|].
  destruct (rstrip_keeps_head c r Hc) as [r' Er].
  assert (Py.lstrip (Py.rstrip (String c r)) = Py.rstrip (String c r)) as ->.
  { rewrite Er. cbn [Py.lstrip]. rewrite Hc. reflexivity. }
  apply rstrip_idempotent.
Qed.


(** ** What the calls leave of the state *)

Lemma transcribe_with_gemini_effects (env : Env) (audio_path : string)
    (w : world) :
  let w' := snd (transcribe_with_gemini.transcribe_with_gemini env audio_path w)
  in
  fs w' = fs w
  /\ exists added,
       log w' = log w ++ added
       /\ forall argv, EvRun argv ∉ added.
Proof.
  cbv zeta. unfold transcribe_with_gemini.transcribe_with_gemini. run.
  assert (forall (l : list event) argv,
             Forall (fun ev => match ev with EvRun _ => False | _ => True end) l
             -> EvRun argv ∉ l) as Hno.
  { intros l argv Hl Hin. rewrite Forall_forall in Hl.
    exact (Hl _ Hin). }
  destruct (genai_upload_file env _ _) as [e|name]; cbn.
  { split; [destruct (is_Exception e); reflexivity|].
    exists []. rewrite app_nil_r.
    split; [destruct (is_Exception e); reflexivity | intros; apply Hno; constructor]. }
  destruct (genai_generate_content env _ _) as [e|response]; cbn.
  { split; [destruct (is_Exception e); reflexivity|].
    eexists. rewrite <- app_assoc.
    split; [destruct (is_Exception e); reflexivity|].
    intros; apply Hno; repeat constructor. }
  destruct (genai_delete_file env name) as [e|[]]; cbn.
  { split; [destruct (is_Exception e); reflexivity|].
    eexists. rewrite <- app_assoc.
    split; [destruct (is_Exception e); reflexivity|].
    intros; apply Hno; repeat constructor. }
  destruct response as [e|answer]; cbn.
  - split; [destruct (is_Exception e); reflexivity|].
    eexists. rewrite <- !app_assoc.
    split; [destruct (is_Exception e); reflexivity|].
    intros; apply Hno; repeat constructor.
  - split; [reflexivity|].
    eexists. rewrite <- !app_assoc. split; [reflexivity|].
    intros; apply Hno; repeat constructor.
Qed.

(** ** get_mime_type: the result is an audio type *)

(** X1. Whatever [mimetypes] answers and whatever the path is,
    [get_mime_type] returns a type that starts with "audio/". *)
Theorem get_mime_type_is_audio (env : Env) (audio_path : string) :
  Py.startswith "audio/" (transcribe_with_gemini.get_mime_type env audio_path)
  = true
  /\ Py.startswith "audio/" (gemini_claude_app.get_mime_type env audio_path)
     = true
  /\ Py.startswith "audio/" (gemini_app.get_mime_type env audio_path) = true.
Proof.
  assert (Py.startswith "audio/"
            (transcribe_with_gemini.get_mime_type env audio_path) = true) as H;
    [|repeat split; exact H].
  unfold transcribe_with_gemini.get_mime_type.
  assert (Py.startswith "audio/"
            (default "audio/wav"
               (transcribe_with_gemini.mime_map
                  !! Py.lower (snd (Py.splitext audio_path)))) = true) as Hext.
  { destruct (transcribe_with_gemini.mime_map !! _) as [v|] eqn:E;
      [|reflexivity].
    apply elem_of_list_to_map_2 in E.
    repeat (apply elem_of_cons in E as [E|E];
            [inversion E; subst; reflexivity|]).
    inversion E. }
  destruct (guess_type env audio_path) as [mime_type|]; [|exact Hext].
  destruct (Py.truthy mime_type && Py.startswith "audio/" mime_type) eqn:E;
    [|exact Hext].
  apply andb_true_iff in E. tauto.
Qed.

(** ** main of transcribe_with_gemini.py *)

(** X2. When the audio file is missing, or when the transcription
    yields [None] or an empty text, [main] exits with status 1: no file
    is written and the command-line tool is never run. *)
Theorem main_stops_before_processing (env : Env)
    (args : transcribe_with_gemini.Args) (w : world)
    (Hstop :
       fs w !! transcribe_with_gemini.audio_file args = None
       \/ exists answer,
            fst (transcribe_with_gemini.transcribe_with_gemini env
                   (transcribe_with_gemini.audio_file args) w)
              = Return answer
            /\ Py.truthy_opt answer = false) :
  let w' := snd (transcribe_with_gemini.main env args w) in
  fst (transcribe_with_gemini.main env args w) = Raise (SystemExit 1)
  /\ fs w' = fs w
  /\ forall argv, EvRun argv ∈ log w' -> EvRun argv ∈ log w.
Proof.
  cbv zeta.
  assert (exists w1,
             transcribe_with_gemini.main env args w = (Raise (SystemExit 1), w1)
             /\ fs w1 = fs w
             /\ forall argv, EvRun argv ∈ log w1 -> EvRun argv ∈ log w)
    as (w1 & -> & Hfs & Hlog); [|split; [reflexivity | split; assumption]].
  unfold transcribe_with_gemini.main. unfold bind at 1.
  unfold transcribe_with_gemini.main_pipeline. unfold bind at 1.
  unfold path_exists at 1.
  destruct (fs w !! transcribe_with_gemini.audio_file args) as [data|] eqn:Efile.
  - destruct Hstop as [Hnone | (answer & Hrun & Hfalsy)]; [discriminate|].
    rewrite bool_decide_eq_true_2 by eauto. cbn [negb]. unfold bind at 1.
    pose proof (transcribe_with_gemini_effects env
                  (transcribe_with_gemini.audio_file args) w) as Heff.
    cbv zeta in Heff.
    destruct (transcribe_with_gemini.transcribe_with_gemini env _ w)
      as [o w1].
    cbn [fst snd] in *. subst o. rewrite Hfalsy. cbn.
    destruct Heff as (Hfs & added & Hlog & Hno).
    exists w1. split; [reflexivity|]. split; [exact Hfs|].
    intros argv Hin. rewrite Hlog in Hin. apply elem_of_app in Hin.
    destruct Hin as [Hin|Hin]; [exact Hin | destruct (Hno _ Hin)].
  - rewrite bool_decide_eq_false_2 by (intros [x Hx]; discriminate).
    cbn. exists w. repeat split. intros argv H. exact H.
Qed.

Lemma main_stops_before_processing_witness :
  fst (transcribe_with_gemini.main Scenarios.generate_refused
         (transcribe_with_gemini.mkArgs "talk.mp3"
            transcribe_with_gemini.summarize (Some "out.txt"))
         (Scenarios.start [("talk.mp3", "audio")]))
  = Raise (SystemExit 1).
Proof.
  apply (main_stops_before_processing Scenarios.generate_refused
           (transcribe_with_gemini.mkArgs "talk.mp3"
              transcribe_with_gemini.summarize (Some "out.txt"))
           (Scenarios.start [("talk.mp3", "audio")])).
  right. exists None. split; reflexivity.
Defined.

(** X3. When the transcription and the command-line tool both produce
    a non-empty text and [--output] names a file that can be opened for
    writing, [main] writes to that file a report in which the transcript
    and the processed text both occur, and changes nothing else. *)
Theorem main_writes_both_texts (env : Env)
    (args : transcribe_with_gemini.Args) (w w1 w2 : world)
    (heard processed path : string)
    (Haudio : is_Some (fs w !! transcribe_with_gemini.audio_file args))
    (Htranscribed :
       transcribe_with_gemini.transcribe_with_gemini env
         (transcribe_with_gemini.audio_file args) w
       = (Return (Some heard), w1))
    (Hheard : heard <> "")
    (Hprocessed :
       transcribe_with_gemini.summarize_with_claude env heard
         (transcribe_with_gemini.task_name (transcribe_with_gemini.task args))
         w1
       = (Return (Some processed), w2))
    (Hnonempty : processed <> "")
    (Houtput : transcribe_with_gemini.output args = Some path)
    (Hpath : path <> "")
    (Hopen : os_open_for_writing env path (fs w2) = inr tt) :
  let content := transcribe_with_gemini.output_content args heard processed in
  transcribe_with_gemini.main env args w
  = (Return tt, mkWorld (<[path := content]> (fs w2)) (log w2))
  /\ Py.contains heard content = true
  /\ Py.contains processed content = true.
Proof.
  intros content. split; [|split].
  - unfold transcribe_with_gemini.main. unfold bind at 1.
    unfold transcribe_with_gemini.main_pipeline. unfold bind at 1.
    unfold path_exists at 1. rewrite bool_decide_eq_true_2 by exact Haudio.
    cbn [negb]. unfold bind at 1. rewrite Htranscribed.
    unfold Py.truthy_opt, Py.truthy. cbn [from_option id].
    apply String.eqb_neq in Hheard, Hnonempty, Hpath.
    rewrite Hheard. cbn [negb]. unfold bind at 1. rewrite Hprocessed.
    rewrite Hnonempty. cbn [negb]. unfold ret at 1. rewrite Houtput, Hpath.
    cbn [negb from_option id]. unfold write_output. rewrite Hopen.
    reflexivity.
  - apply contains_iff. unfold content, transcribe_with_gemini.output_content.
    exists ("=== ORIGINAL TRANSCRIPT ===" +:+ LF),
      (LF +:+ LF +:+ "=== CLAUDE "
         +:+ Py.upper
               (transcribe_with_gemini.task_name
                  (transcribe_with_gemini.task args))
         +:+ " ===" +:+ LF +:+ processed).
    rewrite !append_assoc. reflexivity.
  - apply contains_iff. unfold content, transcribe_with_gemini.output_content.
    exists ("=== ORIGINAL TRANSCRIPT ===" +:+ LF +:+ heard +:+ LF +:+ LF
              +:+ "=== CLAUDE "
              +:+ Py.upper
                    (transcribe_with_gemini.task_name
                       (transcribe_with_gemini.task args))
              +:+ " ===" +:+ LF), "".
    rewrite append_nil_r, !append_assoc. reflexivity.
Qed.

Lemma main_writes_both_texts_witness :
  fs (snd (transcribe_with_gemini.main (Scenarios.backend "hello" 0 " hi ")
             (transcribe_with_gemini.mkArgs "talk.mp3"
                transcribe_with_gemini.translate (Some "out.txt"))
             (Scenarios.start [("talk.mp3", "audio")])))
    !! "out.txt"
  = Some (transcribe_with_gemini.output_content
            (transcribe_with_gemini.mkArgs "talk.mp3"
               transcribe_with_gemini.translate (Some "out.txt"))
            "hello" "hi").
Proof.
  pose proof (main_writes_both_texts (Scenarios.backend "hello" 0 " hi ")
                (transcribe_with_gemini.mkArgs "talk.mp3"
                   transcribe_with_gemini.translate (Some "out.txt"))
                (Scenarios.start [("talk.mp3", "audio")])
                (mkWorld (fs (Scenarios.start [("talk.mp3", "audio")]))
                   [ EvUpload "talk.mp3" "audio/mpeg" "files/a1";
                     EvGenerate "gemini-1.5-flash"
                       (transcribe_request "files/a1");
                     EvDelete "files/a1" ])
                (mkWorld (fs (Scenarios.start [("talk.mp3", "audio")]))
                   [ EvUpload "talk.mp3" "audio/mpeg" "files/a1";
                     EvGenerate "gemini-1.5-flash"
                       (transcribe_request "files/a1");
                     EvDelete "files/a1";
                     EvRun ["claude"; "say";
                            transcribe_with_gemini.summarize_prompt "hello"
                              "translate"] ])
                "hello" "hi" "out.txt"
                ltac:(vm_compute; eauto) eq_refl ltac:(discriminate) eq_refl
                ltac:(discriminate) eq_refl ltac:(discriminate) eq_refl)
    as H.
  cbv zeta in H. destruct H as [H _]. rewrite H. cbn [snd fs].
  apply lookup_insert_eq.
Defined.

(** ** The processed text *)

(** X4. A text that the command-line or the remote text processing
    returns has no white space at its ends: stripping it again changes
    nothing. *)
Theorem processed_text_is_stripped (env : Env) (w : world)
    (text task target_language s : string)
    (Hreturned :
       fst (transcribe_with_gemini.summarize_with_claude env text task w)
         = Return (Some s)
       \/ fst (gemini_claude_app.process_with_claude env text task
                 target_language w)
          = Return (Some s)
       \/ fst (gemini_app.process_with_gemini env text task target_language w)
          = Return (Some s)) :
  Py.strip s = s.
Proof.
  destruct Hreturned as [H | [H | H]]; revert H.
  - unfold transcribe_with_gemini.summarize_with_claude. run.
    destruct (run_process env _ None) as [e|result]; cbn.
    { destruct (is_Exception e); discriminate. }
    destruct (returncode result =? 0); cbn; [|discriminate].
    intros H. inversion H. apply strip_idempotent.
  - unfold gemini_claude_app.process_with_claude. run.
    destruct (run_process env _ None) as [e|result]; cbn.
    { destruct (is_Exception e); discriminate. }
    destruct (returncode result =? 0); cbn; [|discriminate].
    intros H. inversion H. apply strip_idempotent.
  - unfold gemini_app.process_with_gemini. run.
    destruct (genai_generate_content env _ _) as [e|[e|answer]]; cbn.
    { destruct (is_Exception e); discriminate. }
    { destruct (is_Exception e); discriminate. }
    destruct (Py.truthy answer); cbn; [|discriminate].
    intros H. inversion H. apply strip_idempotent.
Qed.

Lemma processed_text_is_stripped_witness : Py.strip "hi there" = "hi there".
Proof.
  apply (processed_text_is_stripped (Scenarios.backend "hello" 0 "  hi there ")
           (Scenarios.start []) "hello" "summarize" "English" "hi there").
  left. reflexivity.
Defined.

(** X5. [process_with_gemini] always returns: the stripped text of the
    response when that text is not empty, and [None] when the request
    raised, when reading the text raised, or when the text is empty. *)
Theorem process_with_gemini_total (env : Env)
    (Hexn : raises_only_Exception env) (w : world)
    (text task target_language : string) :
  fst (gemini_app.process_with_gemini env text task target_language w)
  = Return
      match genai_generate_content env "gemini-2.0-flash"
              [Text (gemini_app.process_prompt text task target_language)] with
      | inr (inr answer) =>
          if Py.truthy answer then Some (Py.strip answer) else None
      | _ => None
      end.
Proof.
  destruct Hexn as (_ & Hgen & Htext & _ & _).
  unfold gemini_app.process_with_gemini. run.
  destruct (genai_generate_content env _ _) as [e|[e|answer]] eqn:E; cbn.
  - rewrite (Hgen _ _ _ E). reflexivity.
  - rewrite (Htext _ _ _ E). reflexivity.
  - destruct (Py.truthy answer); reflexivity.
Qed.

Lemma process_with_gemini_total_witness :
  fst (gemini_app.process_with_gemini Scenarios.generate_refused "some text"
         "analyze" "Thai" (Scenarios.start []))
  = Return None.
Proof.
  exact (process_with_gemini_total Scenarios.generate_refused
           generate_refused_only_Exception (Scenarios.start []) "some text"
           "analyze" "Thai").
Defined.

(** X6. [summarize_with_claude] of youtube_transcribe_app.py and
    [process_with_claude] of transcribe_full.py never raise, whatever
    the subprocess call raises, an interrupt included: they return the
    output as printed when the tool exits with status 0, and [None]
    otherwise. *)
Theorem bare_except_never_raises (env : Env) (w : world)
    (text language : string) :
  fst (youtube_transcribe_app.summarize_with_claude env text language w)
  = Return
      match run_process env
              ["claude"; youtube_transcribe_app.summarize_prompt text language]
              (Some 30) with
      | inr result =>
          if returncode result =? 0 then Some (stdout result) else None
      | inl _ => None
      end
  /\ fst (transcribe_full.process_with_claude env text language w)
     = Return
         match run_process env
                 ["claude"; transcribe_full.process_prompt text language]
                 (Some 30) with
         | inr result =>
             if returncode result =? 0 then Some (stdout result) else None
         | inl _ => None
         end.
Proof.
  split.
  - unfold youtube_transcribe_app.summarize_with_claude. run.
    destruct (run_process env _ _) as [e|result]; cbn; [reflexivity|].
    destruct (returncode result =? 0); reflexivity.
  - unfold transcribe_full.process_with_claude. run.
    destruct (run_process env _ _) as [e|result]; cbn; [reflexivity|].
    destruct (returncode result =? 0); reflexivity.
Qed.

(** X7. [summarize_with_claude] of transcribe_and_summarize.py returns
    the output of the tool, not stripped, when it exits with status 0
    and [None] when it exits with another status; an error of the call
    itself, such as the executable missing, is not caught and reaches
    the caller. *)
Theorem summarize_with_claude_escapes (env : Env) (w : world) (text : string) :
  fst (transcribe_and_summarize.summarize_with_claude env text w)
  = match run_process env
            ["claude"; transcribe_and_summarize.summarize_prompt text] None with
    | inl e => if is_CalledProcessError e then Return None else Raise e
    | inr result =>
        if returncode result =? 0 then Return (Some (stdout result))
        else Return None
    end.
Proof.
  unfold transcribe_and_summarize.summarize_with_claude. run.
  destruct (run_process env _ None) as [e|result]; cbn.
  - destruct (is_CalledProcessError e); reflexivity.
  - destruct (returncode result =? 0); reflexivity.
Qed.

(** ** The temporary file of local_transcribe.py *)

(** X8. After [process_with_claude] of local_transcribe.py, however the
    call of the tool ends, temp_transcription.txt does not exist and
    every other file is as it was; a file of that name that existed
    before is lost. *)
Theorem temp_transcription_removed (env : Env) (w : world)
    (text prompt : string) :
  fs (snd (local_transcribe.process_with_claude env text prompt w))
  = delete "temp_transcription.txt" (fs w).
Proof.
  unfold local_transcribe.process_with_claude. run.
  destruct (run_process env _ None) as [e|result]; cbn.
  - destruct (is_CalledProcessError e); cbn;
      rewrite bool_decide_eq_true_2 by (rewrite lookup_insert_eq; eauto);
      cbn; apply delete_insert_eq.
  - destruct (negb (returncode result =? 0)); cbn;
      rewrite bool_decide_eq_true_2 by (rewrite lookup_insert_eq; eauto);
      cbn; apply delete_insert_eq.
Qed.

(** X9. When the call of the tool itself fails in local_transcribe.py
    (any error but a non-zero exit status, for instance the executable
    missing), [main] ends with that error and has written no file: the
    transcription, already computed, is not saved. *)
Theorem local_main_loses_transcript (env : Env) (w : world)
    (largs : local_transcribe.Args) (transcription : string) (e : exn)
    (Haudio : is_Some (fs w !! local_transcribe.audio_file largs))
    (Htranscribed :
       whisper_transcribe env (local_transcribe.model largs)
         (local_transcribe.audio_file largs) = inr transcription)
    (Hcall :
       run_process env (local_argv (local_transcribe.task largs) transcription)
         None = inl e)
    (Hclass : is_CalledProcessError e = false) :
  local_transcribe.main env largs w
  = (Raise e,
     mkWorld (delete "temp_transcription.txt" (fs w))
       (log w ++ [EvRun (local_argv (local_transcribe.task largs)
                           transcription)])).
Proof.
  unfold local_transcribe.main. unfold bind at 1.
  unfold local_transcribe.main_pipeline. unfold bind at 1.
  unfold path_exists at 1. rewrite bool_decide_eq_true_2 by exact Haudio.
  cbn [negb]. unfold bind at 1.
  unfold local_transcribe.transcribe_audio. rewrite Htranscribed.
  unfold lift, ret at 1. unfold bind at 1.
  unfold local_transcribe.process_with_claude. run.
  unfold local_argv in Hcall. rewrite Hcall. cbn. rewrite Hclass. cbn.
  rewrite bool_decide_eq_true_2 by (rewrite lookup_insert_eq; eauto).
  cbn. rewrite delete_insert_eq. reflexivity.
Qed.

Lemma local_main_loses_transcript_witness :
  let run :=
    local_transcribe.main (Hosts.no_claude "hello")
      (local_transcribe.mkArgs "talk.mp3" "base" local_transcribe.summarize
         None)
      (Scenarios.start [("talk.mp3", "audio")]) in
  fst run
  = Raise (FileNotFoundError "[Errno 2] No such file or directory: 'claude'")
  /\ fs (snd run) !! "talk_transcript.txt" = None.
Proof.
  cbv zeta.
  rewrite (local_main_loses_transcript (Hosts.no_claude "hello")
             (Scenarios.start [("talk.mp3", "audio")])
             (local_transcribe.mkArgs "talk.mp3" "base"
                local_transcribe.summarize None)
             "hello"
             (FileNotFoundError "[Errno 2] No such file or directory: 'claude'")
             ltac:(vm_compute; eauto) eq_refl eq_refl eq_refl).
  split; [reflexivity | vm_compute; reflexivity].
Defined.

(** ** transcribe_and_summarize.py: the transcript *)

Lemma spaced_all_space_inv (segments : list Segment) :
  all_space (spaced segments) = true ->
  Forall (fun segment => Py.strip (seg_text segment) = "") segments.
Proof.
  induction segments as [|seg rest IH]; intros H; [constructor|].
  cbn [spaced fold_right] in H. rewrite !all_space_app in H.
  apply andb_true_iff in H as [Hseg H]. apply andb_true_iff in H as [_ H].
  constructor; [apply strip_blank_iff, Hseg | apply IH, H].
Qed.

(** X10. The text that [transcribe_audio] of transcribe_and_summarize.py
    returns has no white space at its ends, and it is empty exactly
    when every emitted segment is blank (or none is emitted). *)
Theorem transcription_is_stripped (env : Env) (w : world)
    (audio_file model_size : string) (segments : list Segment)
    (info : TranscriptionInfo)
    (Hseg : faster_whisper_transcribe env model_size audio_file 5
            = inr (segments, info)) :
  exists transcription,
    fst (transcribe_and_summarize.transcribe_audio env audio_file model_size w)
      = Return transcription
    /\ Py.strip transcription = transcription
    /\ (transcription = ""
        <-> Forall (fun segment => Py.strip (seg_text segment) = "") segments).
Proof.
  exists (Py.strip (spaced segments)).
  rewrite (transcribe_and_summarize_result _ _ _ _ _ _ Hseg).
  split; [reflexivity|]. split; [apply strip_idempotent|].
  rewrite strip_blank_iff. split.
  - apply spaced_all_space_inv.
  - apply spaced_all_space.
Qed.

Lemma transcription_is_stripped_witness :
  exists transcription,
    fst (transcribe_and_summarize.transcribe_audio
           (Scenarios.hears [mkSegment " Hello"; mkSegment " world "] "en")
           "talk.mp3" "base" (Scenarios.start []))
      = Return transcription
    /\ Py.strip transcription = transcription.
Proof.
  destruct (transcription_is_stripped
              (Scenarios.hears [mkSegment " Hello"; mkSegment " world "] "en")
              (Scenarios.start []) "talk.mp3" "base"
              [mkSegment " Hello"; mkSegment " world "] (mkInfo "en") eq_refl)
    as (t & H1 & H2 & _).
  exists t. split; assumption.
Defined.



(** ** Negative durations *)

(** X12. For a negative number of seconds [format_duration] shows no
    hours and prints the time that remains to the next full hour: the
    same text as for [n mod 3600], and "0s" when [n] is a multiple of
    3600. *)
Theorem format_duration_negative (n : Z) (Hneg : n < 0) :
  youtube_downloader.format_duration (Some n)
  = if n mod 3600 =? 0 then "0s"
    else youtube_downloader.format_duration (Some (n mod 3600)).
Proof.
  unfold youtube_downloader.format_duration.
  replace (n =? 0) with false by (symmetry; apply Z.eqb_neq; lia).
  cbn [negb].
  replace (0 <? n / 3600) with false
    by (symmetry; apply Z.ltb_ge; Z.div_mod_to_equations; lia).
  destruct (n mod 3600 =? 0) eqn:E.
  - apply Z.eqb_eq in E.
    replace (n mod 3600 / 60) with 0 by (rewrite E; reflexivity).
    replace (n mod 60) with 0 by (Z.div_mod_to_equations; lia).
    reflexivity.
  - cbn [negb].
    replace (0 <? n mod 3600 / 3600) with false
      by (symmetry; apply Z.ltb_ge; Z.div_mod_to_equations; lia).
    replace ((n mod 3600) mod 3600) with (n mod 3600)
      by (Z.div_mod_to_equations; lia).
    replace ((n mod 3600) mod 60) with (n mod 60)
      by (Z.div_mod_to_equations; lia).
    reflexivity.
Qed.

Lemma format_duration_negative_witness :
  youtube_downloader.format_duration (Some (-5)) = "59m 55s".
Proof.
  rewrite (format_duration_negative (-5) ltac:(lia)). vm_compute. reflexivity.
Defined.

(** ** The uploaded file on the path without errors *)

Lemma upload_released_on_success_witness :
  EvDelete "files/a1"
    ∈ log (snd (transcribe_with_gemini.transcribe_with_gemini
                  (Scenarios.backend "hello" 0 "") "talk.mp3"
                  (Scenarios.start []))).
Proof.
  apply (upload_released_on_success (Scenarios.backend "hello" 0 "")
           "talk.mp3" "files/a1" (inr "hello") (Scenarios.start []));
    reflexivity.
Defined.

(** ** The temporary directory of simple_download_app.py *)

Lemma under_path_join (dir file : string) :
  dir <> "" -> Py.endswith_slash dir = false ->
  Py.startswith "/" file = false ->
  under dir (Py.path_join dir file) = true.
Proof.
  intros Hdir Hslash Hfile. unfold Py.path_join. rewrite Hfile, Hslash.
  apply String.eqb_neq in Hdir. rewrite Hdir. cbn [orb].
  unfold under. apply orb_true_iff. right.
  apply prefix_iff. exists file. rewrite append_assoc. reflexivity.
Qed.

Lemma rmtree_removes (dir p : string) (w : world) :
  under dir p = true -> fs (snd (rmtree dir w)) !! p = None.
Proof.
  intros Hunder. unfold rmtree. cbn [snd fs].
  apply map_lookup_filter_None_2. right. intros x _. cbn. congruence.
Qed.

(** X13. The path that [download_audio] of simple_download_app.py
    returns never exists: the file lies in the temporary directory,
    which is removed with its content when the function returns. *)
Theorem temporary_download_is_gone (env : Env) (host : Host) (w : world)
    (youtube_url path title : string) (duration : option Z)
    (Hdir : mkdtemp host (fs w) <> "")
    (Hslash : Py.endswith_slash (mkdtemp host (fs w)) = false)
    (Hnames : forall dir files file,
        In file (listdir host dir files) -> Py.startswith "/" file = false)
    (Hdeclared : forall info declared,
        ydl_prepare_filename env info = inr declared ->
        under (mkdtemp host (fs w)) declared = true)
    (Hreturned :
       fst (simple_download_app.download_audio env host youtube_url w)
       = Return (path, title, duration)) :
  fs (snd (simple_download_app.download_audio env host youtube_url w)) !! path
  = None.
Proof.
  revert Hreturned. unfold simple_download_app.download_audio.
  unfold with_temporary_directory, try_finally.
  set (temp_dir := mkdtemp host (fs w)) in *.
  set (started := mkWorld (<[temp_dir := ""]> (fs w)) (log w)).
  match goal with
  | |- context [let '(r, w') := ?body started in _] =>
      destruct (body started) as [r w1] eqn:Ebody
  end.
  assert (forall p t d, r = Return (p, t, d) -> under temp_dir p = true)
    as Hunder.
  { revert Ebody. run. unfold os_listdir.
    destruct (ydl_extract_info env _ _ _ _) as [[e|info] after]; cbn.
    { destruct (is_Exception e); intros H; inversion H; discriminate. }
    destruct (ydl_prepare_filename env info) as [e|declared] eqn:Ename; cbn.
    { destruct (is_Exception e); intros H; inversion H; discriminate. }
    destruct (List.find _ (listdir host temp_dir after)) as [file|] eqn:Efind.
    - apply List.find_some in Efind as [Hin _]. apply Hnames in Hin.
      destruct (bool_decide _); cbn; intros H; inversion H; subst;
        [|discriminate].
      intros p t d Hp. inversion Hp; subst.
      apply under_path_join; assumption.
    - destruct (bool_decide _); cbn; intros H; inversion H; subst;
        [|discriminate].
      intros p t d Hp. inversion Hp; subst.
      exact (Hdeclared _ _ Ename). }
  pose proof (rmtree_removes temp_dir path w1) as Hgone.
  unfold rmtree in *. cbn [fst snd] in *.
  intros Hr. subst r. apply Hgone. exact (Hunder _ _ _ eq_refl).
Qed.

Lemma temporary_download_is_gone_witness :
  let run :=
    simple_download_app.download_audio
      (Scenarios.extracts "/tmp/t1/clip.webm" Hosts.clip_in_tmp)
      (Hosts.host ["clip.webm"] ∅) "https://www.youtube.com/watch?v=abc"
      (Scenarios.start []) in
  fst run = Return ("/tmp/t1/clip.webm", "clip", Some 75)
  /\ fs (snd run) !! "/tmp/t1/clip.webm" = None.
Proof.
  cbv zeta.
  assert (fst (simple_download_app.download_audio
                 (Scenarios.extracts "/tmp/t1/clip.webm" Hosts.clip_in_tmp)
                 (Hosts.host ["clip.webm"] ∅)
                 "https://www.youtube.com/watch?v=abc" (Scenarios.start []))
          = Return ("/tmp/t1/clip.webm", "clip", Some 75)) as Hrun
    by (vm_compute; reflexivity).
  split; [exact Hrun|].
  apply (temporary_download_is_gone
           (Scenarios.extracts "/tmp/t1/clip.webm" Hosts.clip_in_tmp)
           (Hosts.host ["clip.webm"] ∅) (Scenarios.start [])
           "https://www.youtube.com/watch?v=abc" "/tmp/t1/clip.webm" "clip"
           (Some 75)).
  - discriminate.
  - reflexivity.
  - intros dir files file [<-|[]]. reflexivity.
  - intros info declared H. inversion H. reflexivity.
  - exact Hrun.
Defined.

(** ** The converted download of simple_transcribe_app.py *)

(** X14. When [download_audio] of simple_transcribe_app.py returns, the
    path is downloads/audio_<timestamp>.mp3 under the working directory
    and that file exists. *)
Theorem converted_download_exists (env : Env) (host : Host) (w : world)
    (youtube_url path title : string) (duration : option Z)
    (Hreturned :
       fst (simple_transcribe_app.download_audio env host youtube_url w)
       = Return (path, title, duration)) :
  path = simple_transcribe_app.output_path env host
  /\ is_Some
       (fs (snd (simple_transcribe_app.download_audio env host youtube_url w))
          !! path).
Proof.
  destruct (simple_transcribe_app.download_audio env host youtube_url w)
    as [r w'] eqn:Erun.
  cbn [fst snd] in *. subst r. revert Erun.
  unfold simple_transcribe_app.download_audio.
  unfold bind at 1.
  destruct (makedirs env (Py.path_join (getcwd env) "downloads") w)
    as [[[]|e0] w0] eqn:Edir; [|discriminate].
  clear Edir. fold (simple_transcribe_app.output_path env host).
  unfold extract_info_mp3. run.
  destruct (ydl_extract_info_mp3 host _ _ _) as [[e|info] after]; cbn.
  { destruct (is_Exception e); discriminate. }
  destruct (bool_decide
              (is_Some (after !! simple_transcribe_app.output_path env host)))
    eqn:Efound; cbn; [|discriminate].
  intros H. inversion H; subst. split; [reflexivity|].
  apply bool_decide_eq_true in Efound. exact Efound.
Qed.

Lemma converted_download_exists_witness :
  fst (simple_transcribe_app.download_audio (Scenarios.backend "" 0 "")
         (Hosts.host [] Hosts.mp3_in_downloads)
         "https://www.youtube.com/watch?v=abc" (Scenarios.start []))
  = Return ("/home/user/downloads/audio_1751525714.mp3", "clip", Some 75)
  /\ "/home/user/downloads/audio_1751525714.mp3"
     = simple_transcribe_app.output_path (Scenarios.backend "" 0 "")
         (Hosts.host [] Hosts.mp3_in_downloads).
Proof.
  assert (fst (simple_transcribe_app.download_audio (Scenarios.backend "" 0 "")
                 (Hosts.host [] Hosts.mp3_in_downloads)
                 "https://www.youtube.com/watch?v=abc" (Scenarios.start []))
          = Return ("/home/user/downloads/audio_1751525714.mp3", "clip",
                    Some 75)) as Hrun
    by (vm_compute; reflexivity).
  split; [exact Hrun|].
  exact (proj1 (converted_download_exists _ _ _ _ _ _ _ Hrun)).
Defined.

(** ** The temporary file of transcribe_app.py *)

(** X15. [transcribe_audio] of transcribe_app.py leaves the file system
    as it found it, whether the transcription succeeds or raises: the
    temporary file that holds the audio is always removed.  The result
    is the answer of the model on that file. *)
Theorem transcribe_audio_cleans_up (env : Env) (host : Host) (w : world)
    (audio_data model_name : string)
    (Hfresh : fs w !! mkstemp host ".mp3" (fs w) = None) :
  fs (snd (transcribe_app.transcribe_audio env host audio_data model_name w))
  = fs w
  /\ fst (transcribe_app.transcribe_audio env host audio_data model_name w)
     = match whisper_transcribe env model_name (mkstemp host ".mp3" (fs w)) with
       | inl e => Raise e
       | inr text => Return text
       end.
Proof.
  unfold transcribe_app.transcribe_audio, named_temporary_file. run.
  destruct (whisper_transcribe env model_name _) as [e|text]; cbn;
    (split; [apply delete_insert_id, Hfresh | reflexivity]).
Qed.

Lemma transcribe_audio_cleans_up_witness :
  fs (snd (transcribe_app.transcribe_audio (Scenarios.backend "hello" 0 "")
             (Hosts.host [] ∅) "audio" "base"
             (Scenarios.start [("notes.txt", "x")])))
  = fs (Scenarios.start [("notes.txt", "x")]).
Proof.
  apply (transcribe_audio_cleans_up (Scenarios.backend "hello" 0 "")
           (Hosts.host [] ∅) (Scenarios.start [("notes.txt", "x")])
           "audio" "base").
  vm_compute. reflexivity.
Defined.

(** ** The handlers of gemini_claude_app.py *)

Lemma app_transcribe_keeps_files (env : Env) (audio_path : string) (w : world) :
  fs (snd (gemini_claude_app.transcribe_with_gemini env audio_path w)) = fs w.
Proof.
  unfold gemini_claude_app.transcribe_with_gemini. run.
  destruct (genai_upload_file env _ _) as [e|name]; cbn;
    [destruct (is_Exception e); reflexivity|].
  destruct (genai_generate_content env _ _) as [e|response]; cbn;
    [destruct (is_Exception e); reflexivity|].
  destruct (genai_delete_file env name) as [e|[]]; cbn;
    [destruct (is_Exception e); reflexivity|].
  destruct response as [e|answer]; cbn;
    [destruct (is_Exception e); reflexivity | reflexivity].
Qed.

Lemma app_process_keeps_files (env : Env) (text task target_language : string)
    (w : world) :
  fs (snd (gemini_claude_app.process_with_claude env text task target_language
             w))
  = fs w.
Proof.
  unfold gemini_claude_app.process_with_claude. run.
  destruct (run_process env _ None) as [e|result]; cbn;
    [destruct (is_Exception e); reflexivity|].
  destruct (returncode result =? 0); reflexivity.
Qed.

Lemma download_keeps_log (env : Env) (youtube_url : string) (w : world) :
  log (snd (gemini_claude_app.download_youtube_audio env youtube_url w))
  = log w.
Proof.
  rewrite download_unfold.
  destruct (os_makedirs env (download_dir env) (fs w)) as [e0|[]];
    [reflexivity|].
  destruct (extraction env youtube_url w) as [[e|info] after]; [reflexivity|].
  destruct (ydl_prepare_filename env info) as [e|declared]; [reflexivity|].
  cbv zeta. repeat (destruct (bool_decide _)); reflexivity.
Qed.

(** X16. After the handler of the upload button, whatever the services
    answer and however the handler ends, the temporary copy of the
    upload does not exist any more and every other file is as it was. *)
Theorem uploaded_copy_removed (env : Env) (w : world)
    (temp_path task target_language : string) :
  fs (snd (gemini_claude_app.main_upload_process env temp_path task
             target_language w))
  = delete temp_path (fs w).
Proof.
  unfold gemini_claude_app.main_upload_process, try_finally.
  match goal with
  | |- context [let '(r, w') := ?body w in _] =>
      assert (fs (snd (body w)) = fs w) as Hbody;
      [|destruct (body w) as [r w1]]
  end.
  { unfold try_except. unfold bind at 1.
    pose proof (app_transcribe_keeps_files env temp_path w) as H1.
    destruct (gemini_claude_app.transcribe_with_gemini env temp_path w)
      as [[transcript|e] w1]; cbn [snd] in *.
    - destruct (Py.truthy_opt transcript); [|exact H1].
      unfold bind at 1.
      pose proof (app_process_keeps_files env (default "" transcript) task
                    target_language w1) as H2.
      destruct (gemini_claude_app.process_with_claude env _ task
                  target_language w1) as [[processed|e] w2]; cbn [snd] in *.
      + cbn. congruence.
      + destruct (is_Exception e); cbn; congruence.
    - destruct (is_Exception e); cbn; exact H1. }
  cbn [snd] in Hbody. run. rewrite Hbody.
  destruct (bool_decide (is_Some (fs w !! temp_path))) eqn:E; cbn.
  - rewrite Hbody. reflexivity.
  - apply bool_decide_eq_false in E. rewrite Hbody. symmetry. apply delete_id.
    destruct (fs w !! temp_path); [exfalso; apply E; eauto | reflexivity].
Qed.

(** X17. When the download fails, the handler of the YouTube button
    calls no service: the log is as it was.  An error that is an
    instance of [Exception] is caught and the session state receives
    nothing. *)
Theorem failed_download_calls_no_service (env : Env) (w : world)
    (youtube_url task target_language : string) (e : exn)
    (Hfailed :
       fst (gemini_claude_app.download_youtube_audio env youtube_url w)
       = Raise e) :
  log (snd (gemini_claude_app.main_youtube_process env youtube_url task
              target_language w))
  = log w
  /\ fst (gemini_claude_app.main_youtube_process env youtube_url task
            target_language w)
     = if is_Exception e then Return None else Raise e.
Proof.
  pose proof (download_keeps_log env youtube_url w) as Hlog.
  unfold gemini_claude_app.main_youtube_process, try_except.
  unfold bind at 1. unfold bind at 3.
  destruct (gemini_claude_app.download_youtube_audio env youtube_url w)
    as [r w1].
  cbn [fst snd] in *. subst r.
  destruct (is_Exception e); cbn; split; assumption || reflexivity.
Qed.

Lemma failed_download_calls_no_service_witness :
  let run :=
    gemini_claude_app.main_youtube_process (Hosts.no_claude "hello")
      "https://www.youtube.com/watch?v=abc" "summarize" "English"
      (Scenarios.start []) in
  log (snd run) = [] /\ fst run = Return None.
Proof.
  cbv zeta.
  exact (failed_download_calls_no_service (Hosts.no_claude "hello")
           (Scenarios.start []) "https://www.youtube.com/watch?v=abc"
           "summarize" "English" (Exception "Error: no network") eq_refl).
Defined.

(** ** Temporary directories *)

(** X18. Nothing stays in the temporary directory of
    simple_download_app.py and of transcribe_app.py: when
    [download_audio] ends, with a result or with an error, no path in
    or below that directory exists. *)
Theorem temporary_directory_removed (env : Env) (host : Host) (w : world)
    (youtube_url p : string)
    (Hunder : under (mkdtemp host (fs w)) p = true) :
  fs (snd (simple_download_app.download_audio env host youtube_url w)) !! p
    = None
  /\ fs (snd (transcribe_app.download_audio host youtube_url w)) !! p
     = None.
Proof.
  assert (forall A (body : string -> M A),
             fs (snd (with_temporary_directory host body w)) !! p = None)
    as Hwith.
  { intros A body. unfold with_temporary_directory, try_finally.
    destruct (body (mkdtemp host (fs w)) _) as [r w1].
    pose proof (rmtree_removes (mkdtemp host (fs w)) p w1 Hunder) as Hgone.
    unfold rmtree in *. cbn [fst snd] in *. exact Hgone. }
  split; apply Hwith.
Qed.

Lemma temporary_directory_removed_witness :
  fs (snd (transcribe_app.download_audio (Hosts.host [] Hosts.clip_in_tmp)
             "https://www.youtube.com/watch?v=abc" (Scenarios.start [])))
    !! "/tmp/t1/clip.webm"
  = None.
Proof.
  apply (temporary_directory_removed (Scenarios.backend "" 0 "")
           (Hosts.host [] Hosts.clip_in_tmp) (Scenarios.start [])
           "https://www.youtube.com/watch?v=abc" "/tmp/t1/clip.webm").
  reflexivity.
Defined.

(** ** main of quick_transcribe.py *)


